(** * vite-plugin-compression: the compression pipeline of the plugin's
    entry module

    A shallow embedding of the plugin factory and of its [closeBundle] hook,
    with the helper functions [filterFiles], [getCompressionOptions],
    [getOutputFileName] and [handleOutputLogger].

    Conventions of the embedding.
    - JavaScript strings are [string]; a [Buffer] is a list of bytes and
      [byteLength] is its length.
    - The numbers the pipeline compares (mtimeMs, Date.now(), sizes,
      threshold) are integers [Z] (milliseconds and bytes); the one place
      where the code divides, the percentage of the report, is modelled by
      [js_div], which keeps JavaScript's results for a zero divisor.
    - [mtimeCache], a module-level [Map<string, number>], is a [gmap] in the
      state; [compressMap], a [Map] that the report iterates in insertion
      order, is an association list with [Map.prototype.set]'s update in place.
    - Asynchronous code is a state-and-rejection monad [Async] over the file
      system, the cache, the map of results and the trace of observable
      actions. [Promise.all] runs the per-file tasks one after the other in
      list order: every task runs, also after a rejection.
    - The collaborators that are not part of this file (zlib, the clock,
      [readAllFile] of ./utils) are the fields of a [Host] record.
    - [closeBundle] takes the report as one action; [closeBundle_lines] and
      [handleOutputLogger_lines] add the lines that are logged and the
      [RangeError] of a negative padding.
    - [handle], the task of one file, takes [fs.remove] as done at the call
      and [fs.writeFile] as successful; [handle_io] is the same task with
      the time of the removal and the result of the write left to a
      [Schedule]. *)

From Stdlib Require Import ZArith QArith String Ascii List Lia.
From stdpp Require Import base option gmap strings list fin_maps pretty.

Local Open Scope string_scope.
Local Open Scope Z_scope.

(** ** Data *)

Definition Buffer : Type := list Byte.byte.

Definition byteLength (b : Buffer) : Z := Z.of_nat (length b).

(** The result of a JavaScript division of two integers. *)
Inductive JsNumber : Type :=
  | Finite (q : Q)
  | PosInfinity
  | NegInfinity
  | NaN.

Definition js_div (a b : Z) : JsNumber :=
  if decide (b = 0) then
    if decide (a = 0) then NaN
    else if decide (0 < a) then PosInfinity else NegInfinity
  else Finite (Qdiv (inject_Z a) (inject_Z b)).

(** Values of a zlib or brotli options object. *)
Inductive OptionValue : Type :=
  | VNumber (n : Z)
  | VBoolean (b : bool)
  | VObject (props : gmap Z Z).

(** [RegExp | ((file: string) => boolean)]; a regular expression is its
    [test] function: one without the [g] or [y] flag, as the default
    [extRE], so that [test] does not move [lastIndex] and is a function of
    the file name alone. [FilterOther] stands for any other JavaScript
    value, with its truthiness. *)
Inductive Filter : Type :=
  | FilterRegExp (test : string → bool)
  | FilterFunction (fn : string → bool)
  | FilterOther (truthy : bool).

(** The interface [VitePluginCompression] of [src/types.ts]: every field is
    optional. The factory also reads [success], a callback that the interface
    does not declare; calling it is the event [EvSuccess] below, whether it is
    the user's function or the default [() => {}]. *)
Record VitePluginCompression : Type := {
  verbose : option bool;
  threshold : option Z;
  filter : option Filter;
  disable : option bool;
  algorithm : option string;
  ext : option string;
  compressionOptions : option (gmap string OptionValue);
  deleteOriginFile : option bool
}.

Definition no_options : VitePluginCompression :=
  {| verbose := None; threshold := None; filter := None; disable := None;
     algorithm := None; ext := None; compressionOptions := None;
     deleteOriginFile := None |}.

(** ** zlib constants *)

Module zlib_constants.
Definition Z_BEST_COMPRESSION : Z := 9.
Definition BROTLI_PARAM_MODE : Z := 0.
Definition BROTLI_PARAM_QUALITY : Z := 1.
Definition BROTLI_MODE_TEXT : Z := 1.
Definition BROTLI_MAX_QUALITY : Z := 11.
End zlib_constants.

(** ** The default filter [extRE = /\.(js|mjs|json|css|html)$/i] *)

Definition lower_ascii (c : ascii) : ascii :=
  let n := nat_of_ascii c in
  if ((65 <=? n) && (n <=? 90))%nat then ascii_of_nat (n + 32) else c.

Fixpoint lower (s : string) : string :=
  match s with
  | EmptyString => EmptyString
  | String c s' => String (lower_ascii c) (lower s')
  end.

Fixpoint endsWith (s suffix : string) : bool :=
  if String.eqb s suffix then true
  else match s with
       | EmptyString => false
       | String _ s' => endsWith s' suffix
       end.

Definition extRE (file : string) : bool :=
  existsb (endsWith (lower file)) [".js"; ".mjs"; ".json"; ".css"; ".html"].

(** ** Helper functions of the plugin *)

(** [filterFiles(files, filter)] *)
Definition filterFiles (files : list string) (filter : Filter) : list string :=
  match filter with
  | FilterRegExp test => List.filter test files
  | FilterFunction fn => List.filter fn files
  | FilterOther true => List.filter (λ _, true) files
  | FilterOther false => files
  end.

(** [getCompressionOptions(algorithm, compressionOptions)] *)
Definition defaultOptions : gmap string (gmap string OptionValue) :=
  <["gzip" := {["level" := VNumber zlib_constants.Z_BEST_COMPRESSION]}]>
  (<["deflate" := {["level" := VNumber zlib_constants.Z_BEST_COMPRESSION]}]>
  (<["deflateRaw" := {["level" := VNumber zlib_constants.Z_BEST_COMPRESSION]}]>
  (<["brotliCompress" :=
       {["params" :=
           VObject
             (<[zlib_constants.BROTLI_PARAM_QUALITY :=
                  zlib_constants.BROTLI_MAX_QUALITY]>
              (<[zlib_constants.BROTLI_PARAM_MODE :=
                   zlib_constants.BROTLI_MODE_TEXT]> ∅))]}]> ∅))).

(** [{ ...defaultOptions[algorithm], ...compressionOptions }]: the keys of
    the second spread win; spreading [undefined] adds nothing. *)
Definition getCompressionOptions (algorithm : string)
    (compressionOptions : gmap string OptionValue) : gmap string OptionValue :=
  compressionOptions ∪ default ∅ (defaultOptions !! algorithm).

(** [getOutputFileName(filepath, ext)] *)
Definition getOutputFileName (filepath ext : string) : string :=
  let compressExt := if String.prefix "." ext then ext else "." +:+ ext in
  filepath +:+ compressExt.

(** ** The plugin factory: defaults and the extension *)

Record ResolvedOptions : Type := {
  r_disable : bool;
  r_filter : Filter;
  r_verbose : bool;
  r_threshold : Z;
  r_compressionOptions : gmap string OptionValue;
  r_deleteOriginFile : bool;
  r_ext : string;
  r_algorithm : string
}.

(** [let { ext = '' } = options; const { algorithm = 'gzip' } = options]
    followed by the two [if (algorithm === ... && !ext)] assignments. *)
Definition resolveExt (options : VitePluginCompression) : string :=
  let ext0 := default "" (ext options) in
  let algorithm := default "gzip" (algorithm options) in
  let ext1 :=
    if bool_decide (algorithm = "gzip") && bool_decide (ext0 = "")
    then ".gz" else ext0 in
  let ext2 :=
    if bool_decide (algorithm = "brotliCompress") && bool_decide (ext1 = "")
    then ".br" else ext1 in
  ext2.

Definition resolveOptions (options : VitePluginCompression) : ResolvedOptions :=
  {| r_disable := default false (disable options);
     r_filter := default (FilterRegExp extRE) (filter options);
     r_verbose := default true (verbose options);
     r_threshold := default 1025 (threshold options);
     r_compressionOptions := default ∅ (compressionOptions options);
     r_deleteOriginFile := default false (deleteOriginFile options);
     r_ext := resolveExt options;
     r_algorithm := default "gzip" (algorithm options) |}.

(** ** State, observable actions and the [Async] monad *)

(** What [fs.stat] returns, as far as the plugin reads it. *)
Record Stats : Type := { mtimeMs : Z; stat_size : Z }.

(** A regular file on disk. *)
Record FileNode : Type := { node_mtimeMs : Z; node_data : Buffer }.

Definition stat_of (n : FileNode) : Stats :=
  {| mtimeMs := node_mtimeMs n; stat_size := byteLength (node_data n) |}.

(** A value of [compressMap]. *)
Record CompressEntry : Type := {
  e_size : Z;
  e_oldSize : Z;
  e_cname : string
}.

Record ReportRow : Type := {
  row_filename : string;
  row_oldSize : Z;
  row_newSize : Z;
  row_percentage : JsNumber
}.

Record Report : Type := {
  rows : list ReportRow;
  totalOldSize : Z;
  totalNewSize : Z;
  totalPercentage : JsNumber
}.

Inductive Event : Type :=
  | EvStat (filePath : string)
  | EvReadFile (filePath : string)
  | EvRemove (filePath : string)
  | EvCompress (filePath : string) (algorithm : string)
  | EvLoggerError (msg : string)
  | EvWriteFile (cname : string) (content : Buffer)
  | EvCacheSet (filePath : string) (time : Z)
  | EvReport (report : Report)
  | EvSuccess.

Record State : Type := {
  fs : gmap string FileNode;
  mtimeCache : gmap string Z;
  compressMap : list (string * CompressEntry);
  trace : list Event
}.

Definition emit (e : Event) (st : State) : State :=
  {| fs := fs st; mtimeCache := mtimeCache st;
     compressMap := compressMap st; trace := trace st ++ [e] |}.

Definition set_fs (f : gmap string FileNode) (st : State) : State :=
  {| fs := f; mtimeCache := mtimeCache st;
     compressMap := compressMap st; trace := trace st |}.

Definition set_mtimeCache (c : gmap string Z) (st : State) : State :=
  {| fs := fs st; mtimeCache := c;
     compressMap := compressMap st; trace := trace st |}.

Definition set_compressMap (m : list (string * CompressEntry)) (st : State) : State :=
  {| fs := fs st; mtimeCache := mtimeCache st;
     compressMap := m; trace := trace st |}.

(** The collaborators of the plugin. [zlib] is [None] when the codec calls
    back with an error (or when [zlib[algorithm]] is not a function);
    [Date_now] is the clock read by the task of a file, [fs_clock] the
    modification time that the file system gives to a file written at a path;
    [readAllFile] is the directory walk of ./utils. *)
Record Host : Type := {
  zlib : string → Buffer → gmap string OptionValue → option Buffer;
  Date_now : string → Z;
  fs_clock : string → Z;
  readAllFile : string → gmap string FileNode → list string
}.

Inductive Outcome (A : Type) : Type :=
  | Resolved (a : A)
  | Rejected (reason : string).
Arguments Resolved {A} a.
Arguments Rejected {A} reason.

Definition Async (A : Type) : Type := State → Outcome A * State.

#[global] Instance Async_ret : MRet Async := λ A a st, (Resolved a, st).

#[global] Instance Async_bind : MBind Async := λ A B k m st,
  match m st with
  | (Resolved a, st') => k a st'
  | (Rejected e, st') => (Rejected e, st')
  end.

(** [try { m } catch (error) { handler }] *)
Definition try_catch {A} (m : Async A) (handler : string → Async A) : Async A :=
  λ st,
  match m st with
  | (Resolved a, st') => (Resolved a, st')
  | (Rejected e, st') => handler e st'
  end.

Definition fs_stat (filePath : string) : Async Stats := λ st,
  match fs st !! filePath with
  | Some n => (Resolved (stat_of n), emit (EvStat filePath) st)
  | None => (Rejected "ENOENT", emit (EvStat filePath) st)
  end.

Definition fs_readFile (filePath : string) : Async Buffer := λ st,
  match fs st !! filePath with
  | Some n => (Resolved (node_data n), emit (EvReadFile filePath) st)
  | None => (Rejected "ENOENT", emit (EvReadFile filePath) st)
  end.

(** [fs.remove(filePath)]: the call is not awaited; here the file is gone
    from the moment of the call, and the removal does not fail. [io_remove]
    below leaves the time of the removal to the environment. *)
Definition fs_remove (filePath : string) : Async unit := λ st,
  (Resolved tt, emit (EvRemove filePath) (set_fs (delete filePath (fs st)) st)).

(** [await fs.writeFile(cname, content)] when the write succeeds;
    [io_writeFile] below has the write that is rejected. *)
Definition fs_writeFile (h : Host) (cname : string) (content : Buffer) : Async unit :=
  λ st,
  (Resolved tt,
   emit (EvWriteFile cname content)
     (set_fs (<[cname := {| node_mtimeMs := fs_clock h cname;
                            node_data := content |}]> (fs st)) st)).

Definition mtimeCache_get (filePath : string) : Async (option Z) := λ st,
  (Resolved (mtimeCache st !! filePath), st).

Definition mtimeCache_set (filePath : string) (time : Z) : Async unit := λ st,
  (Resolved tt,
   emit (EvCacheSet filePath time)
     (set_mtimeCache (<[filePath := time]> (mtimeCache st)) st)).

(** [Map.prototype.set]: an existing key keeps its place. *)
Fixpoint jsmap_set {V} (k : string) (v : V) (m : list (string * V))
    : list (string * V) :=
  match m with
  | [] => [(k, v)]
  | (k', v') :: m' =>
      if decide (k = k') then (k, v) :: m' else (k', v') :: jsmap_set k v m'
  end.

Definition compressMap_set (filePath : string) (e : CompressEntry) : Async unit :=
  λ st, (Resolved tt, set_compressMap (jsmap_set filePath e (compressMap st)) st).

Definition logger_error (msg : string) : Async unit := λ st,
  (Resolved tt, emit (EvLoggerError msg) st).

(** [compress(content, algorithm, options)]; [filePath] only labels the
    event. *)
Definition compress (h : Host) (filePath : string) (content : Buffer)
    (algorithm : string) (options : gmap string OptionValue) : Async Buffer :=
  λ st,
  match zlib h algorithm content options with
  | Some result => (Resolved result, emit (EvCompress filePath algorithm) st)
  | None => (Rejected "zlib", emit (EvCompress filePath algorithm) st)
  end.

(** ** [handleOutputLogger] *)

(** The report, as the numbers it is rendered from: one row per entry of
    [compressMap] in insertion order, and the totals. The layout of the text
    (path normalisation, [toFixed(2)], padding, colours) is outside the
    model; [row_filename] is [cname] as stored. *)
Definition report_row (kv : string * CompressEntry) : ReportRow :=
  let e := kv.2 in
  {| row_filename := e_cname e;
     row_oldSize := e_oldSize e;
     row_newSize := e_size e;
     row_percentage := js_div (100 * e_size e) (e_oldSize e) |}.

Definition sum_map (f : CompressEntry → Z) (m : list (string * CompressEntry)) : Z :=
  foldl (λ acc kv, acc + f kv.2) 0 m.

Definition handleOutputLogger (m : list (string * CompressEntry)) : Report :=
  let totalOld := sum_map e_oldSize m in
  let totalNew := sum_map e_size m in
  {| rows := map report_row m;
     totalOldSize := totalOld;
     totalNewSize := totalNew;
     totalPercentage := js_div (100 * totalNew) totalOld |}.

(** ** [closeBundle] *)

(** The body of [files.map(async (filePath) => ...)]. *)
Definition handle (h : Host) (o : ResolvedOptions)
    (compressOptions : gmap string OptionValue) (filePath : string) : Async unit :=
  stats ← fs_stat filePath;
  let oldSize := stat_size stats in
  cached ← mtimeCache_get filePath;
  if (mtimeMs stats <=? default 0 cached) || (oldSize <? r_threshold o)
  then mret tt
  else
    content ← fs_readFile filePath;
    _ ← (if r_deleteOriginFile o then fs_remove filePath else mret tt);
    content ← try_catch
      (compress h filePath content (r_algorithm o) compressOptions)
      (λ _, _ ← logger_error ("compress error:" +:+ filePath); mret content);
    let newSize := byteLength content in
    let cname := getOutputFileName filePath (r_ext o) in
    _ ← compressMap_set filePath
          {| e_size := newSize; e_oldSize := oldSize; e_cname := cname |};
    _ ← fs_writeFile h cname content;
    mtimeCache_set filePath (Date_now h filePath).

(** [Promise.all(handles)]: the tasks have all been started by [files.map],
    so each of them runs; the result is the first rejection, if any. The
    tasks are run one after the other, in the order of [files], and the
    state is the one reached when all of them have settled: after a
    rejection it is the state the remaining tasks arrive at, which the hook
    itself does not wait for. *)
Fixpoint Promise_all (handles : list (Async unit)) : Async unit :=
  λ st,
  match handles with
  | [] => (Resolved tt, st)
  | t :: rest =>
      let '(r, st1) := t st in
      let '(rs, st2) := Promise_all rest st1 in
      (match r with Rejected e => Rejected e | Resolved _ => rs end, st2)
  end.

(** The hook. The call of [handleOutputLogger] is one event here,
    [EvReport], carrying the numbers of the report, and is taken to return;
    [closeBundle_lines] below has the text of the report and the
    [RangeError] that [String.prototype.repeat] throws in it. *)
Definition closeBundle (h : Host) (o : ResolvedOptions) (outputPath : string)
    : Async unit :=
  λ st0,
  let files := readAllFile h outputPath (fs st0) in
  match files with
  | [] => (Resolved tt, st0)
  | _ :: _ =>
      let files := filterFiles files (r_filter o) in
      let compressOptions :=
        getCompressionOptions (r_algorithm o) (r_compressionOptions o) in
      let st := set_compressMap [] st0 in
      match Promise_all (map (handle h o compressOptions) files) st with
      | (Rejected e, st') => (Rejected e, st')
      | (Resolved _, st') =>
          if r_verbose o
          then (Resolved tt,
                emit EvSuccess
                  (emit (EvReport (handleOutputLogger (compressMap st'))) st'))
          else (Resolved tt, st')
      end
  end.

(** The factory: with [disable] the plugin has no [closeBundle] hook. *)
Record Plugin : Type := {
  name : string;
  closeBundle_hook : option (Host → string → Async unit)
}.

Definition viteCompression (options : VitePluginCompression) : Plugin :=
  let o := resolveOptions options in
  if r_disable o
  then {| name := "vite:compression"; closeBundle_hook := None |}
  else {| name := "vite:compression";
          closeBundle_hook := Some (λ h outputPath, closeBundle h o outputPath) |}.

(** ** Derived notions used in the statements *)

(** The bytes that the task of a file writes: the codec's result, or, after
    the [catch], the bytes read. *)
Definition result_content (h : Host) (o : ResolvedOptions)
    (compressOptions : gmap string OptionValue) (n : FileNode) : Buffer :=
  match zlib h (r_algorithm o) (node_data n) compressOptions with
  | Some result => result
  | None => node_data n
  end.

(** The condition of the early [return] of a task, on the file as it is on
    disk and the cache as it is when the task starts. *)
Definition skip_condition (o : ResolvedOptions) (st : State) (filePath : string)
    (n : FileNode) : Prop :=
  node_mtimeMs n ≤ default 0 (mtimeCache st !! filePath)
  ∨ byteLength (node_data n) < r_threshold o.

(** The files that [closeBundle] starts a task for. *)
Definition selected (h : Host) (o : ResolvedOptions) (outputPath : string)
    (st : State) : list string :=
  filterFiles (readAllFile h outputPath (fs st)) (r_filter o).

Definition set_verbose (b : bool) (o : ResolvedOptions) : ResolvedOptions :=
  {| r_disable := r_disable o; r_filter := r_filter o; r_verbose := b;
     r_threshold := r_threshold o;
     r_compressionOptions := r_compressionOptions o;
     r_deleteOriginFile := r_deleteOriginFile o; r_ext := r_ext o;
     r_algorithm := r_algorithm o |}.

(** Events of the per-file tasks, as opposed to the report and the callback. *)
Definition is_task_event (e : Event) : bool :=
  match e with
  | EvReport _ | EvSuccess => false
  | _ => true
  end.


(** The names that [defaultOptions] has an entry for. *)
Definition known_algorithm (algorithm : string) : Prop :=
  algorithm = "gzip" ∨ algorithm = "brotliCompress"
  ∨ algorithm = "deflate" ∨ algorithm = "deflateRaw".

#[global] Instance skip_condition_dec o st p n : Decision (skip_condition o st p n).
Proof. unfold skip_condition. apply _. Defined.

(** The events of a task that passes the early [return], in order. *)
Definition process_events (h : Host) (o : ResolvedOptions)
    (compressOptions : gmap string OptionValue) (p : string) (n : FileNode)
    : list Event :=
  [EvStat p; EvReadFile p] ++
  (if r_deleteOriginFile o then [EvRemove p] else []) ++
  [EvCompress p (r_algorithm o)] ++
  (if zlib h (r_algorithm o) (node_data n) compressOptions is Some _ then []
   else [EvLoggerError ("compress error:" +:+ p)]) ++
  [EvWriteFile (getOutputFileName p (r_ext o)) (result_content h o compressOptions n);
   EvCacheSet p (Date_now h p)].

(** The state that such a task leaves. *)
Definition process_state (h : Host) (o : ResolvedOptions)
    (compressOptions : gmap string OptionValue) (p : string) (n : FileNode)
    (st : State) : State :=
  {| fs := <[getOutputFileName p (r_ext o) :=
              {| node_mtimeMs := fs_clock h (getOutputFileName p (r_ext o));
                 node_data := result_content h o compressOptions n |}]>
            (if r_deleteOriginFile o then delete p (fs st) else fs st);
     mtimeCache := <[p := Date_now h p]> (mtimeCache st);
     compressMap :=
       jsmap_set p {| e_size := byteLength (result_content h o compressOptions n);
                      e_oldSize := byteLength (node_data n);
                      e_cname := getOutputFileName p (r_ext o) |}
         (compressMap st);
     trace := trace st ++ process_events h o compressOptions p n |}.



(** What a run adds to the trace. *)
Definition new_events (before after : State) : list Event :=
  drop (length (trace before)) (trace after).


(** ** Fixtures of the examples *)

Module Fixtures.
Definition bytes (n : nat) : Buffer := repeat Byte.x61 n.

(** A stand-in codec: two header bytes and a prefix of the input; it fails
    on an unknown algorithm and on input that starts with a zero byte. *)
Definition toy_zlib (algorithm : string) (content : Buffer)
    (options : gmap string OptionValue) : option Buffer :=
  if bool_decide (algorithm ∈ ["gzip"; "brotliCompress"; "deflate"; "deflateRaw"])
  then match content with
       | Byte.x00 :: _ => None
       | _ => Some (Byte.x1f :: Byte.x8b :: take 3 content)
       end
  else None.

(** Modelled from the spec: [readAllFile] of ./utils is not among the
    sources; the spec's FileCatalog lists the regular files under a root
    directory. Here: the paths of the disk that start with the root. *)
Definition listing (root : string) (files : gmap string FileNode) : list string :=
  List.filter (String.prefix root) (map fst (map_to_list files)).

Definition host (now : Z) : Host :=
  {| zlib := toy_zlib; Date_now := λ _, now; fs_clock := λ _, now;
     readAllFile := listing |}.

Definition file (mtime : Z) (data : Buffer) : FileNode :=
  {| node_mtimeMs := mtime; node_data := data |}.

Definition disk (files : list (string * FileNode)) : State :=
  {| fs := list_to_map files; mtimeCache := ∅; compressMap := []; trace := [] |}.

Definition with_threshold (t : Z) : VitePluginCompression :=
  {| verbose := None; threshold := Some t; filter := None; disable := None;
     algorithm := None; ext := None; compressionOptions := None;
     deleteOriginFile := None |}.

Definition with_verbose (b : bool) : VitePluginCompression :=
  {| verbose := Some b; threshold := None; filter := None; disable := None;
     algorithm := None; ext := None; compressionOptions := None;
     deleteOriginFile := None |}.

Definition with_delete : VitePluginCompression :=
  {| verbose := None; threshold := None; filter := None; disable := None;
     algorithm := None; ext := None; compressionOptions := None;
     deleteOriginFile := Some true |}.

Definition with_algorithm_ext (a : string) (e : option string)
    : VitePluginCompression :=
  {| verbose := None; threshold := None; filter := None; disable := None;
     algorithm := Some a; ext := e; compressionOptions := None;
     deleteOriginFile := None |}.
(** Three files; the codec fails on the second one that is listed. *)
Definition three_files : State :=
  disk [("/dist/c.js", file 1000 (bytes 1600));
        ("/dist/a.js", file 1000 (Byte.x00 :: bytes 1500));
        ("/dist/b.js", file 1000 (bytes 1500))].
(** One file, above the default threshold. *)
Definition one_file : State := disk [("/dist/a.js", file 1000 (bytes 2000))].

(** Two runs in a row over [three_files], under the default options. *)
Definition first_run : State :=
  (closeBundle (host 5000) (resolveOptions no_options) "/dist" three_files).2.



End Fixtures.

(** ** The text of the report

    [handleOutputLogger] once more, now with the lines it logs. The
    functions of other packages that only shape the text are fields of a
    [Console] record; [String.prototype.repeat] is modelled with its
    [RangeError] for a negative count. Lengths are lengths in characters of
    ASCII text. *)

Record Console : Type := {
  (** [x.toFixed(2)] of the quotient of two integers *)
  toFixed2 : JsNumber → string;
  (** [normalizePath(cname).replace(outputDirRE, '')] *)
  relative_name : string → string;
  (** [filename.replace(path.basename(filename), '')] *)
  dir_part : string → string;
  (** [path.basename(filename).replace(extRE, '')], with [ext] *)
  base_part : string → string → string;
  chalk_cyan : string → string;
  chalk_dim : string → string;
  chalk_blueBright : string → string;
  chalk_green : string → string
}.

Fixpoint repeat_string (s : string) (n : nat) : string :=
  match n with
  | O => ""
  | S n' => s +:+ repeat_string s n'
  end.

(** [s.repeat(count)]: [None] is the [RangeError] of a negative count. *)
Definition String_repeat (s : string) (count : Z) : option string :=
  if count <? 0 then None else Some (repeat_string s (Z.to_nat count)).

Definition str_length (s : string) : Z := Z.of_nat (String.length s).

(** The string ['\n']. *)
Definition newline : string := String (ascii_of_nat 10) EmptyString.

Definition bytesDivider : Z := 1000.
Definition sizeUnit : string := "kB".

Record Item : Type := {
  filename : string;
  oldSize : string;
  newSize : string;
  percentage : string
}.

Record MaxLengths : Type := {
  ml_filename : Z;
  ml_oldSize : Z;
  ml_newSize : Z;
  ml_percentage : Z
}.

Definition size_string (c : Console) (bytes : Z) : string :=
  toFixed2 c (js_div bytes bytesDivider) +:+ " " +:+ sizeUnit.

Definition percentage_string (c : Console) (new old : Z) : string :=
  toFixed2 c (js_div (100 * new) old) +:+ " %".

Definition newItem (c : Console) (kv : string * CompressEntry) : Item :=
  {| filename := relative_name c (e_cname kv.2);
     oldSize := size_string c (e_oldSize kv.2);
     newSize := size_string c (e_size kv.2);
     percentage := percentage_string c (e_size kv.2) (e_oldSize kv.2) |}.

Definition update_maxLengths (ml : MaxLengths) (it : Item) : MaxLengths :=
  {| ml_filename := Z.max (ml_filename ml) (str_length (filename it));
     ml_oldSize := Z.max (ml_oldSize ml) (str_length (oldSize it));
     ml_newSize := Z.max (ml_newSize ml) (str_length (newSize it));
     ml_percentage := Z.max (ml_percentage ml) (str_length (percentage it)) |}.

Definition maxLengths_of (items : list Item) : MaxLengths :=
  foldl update_maxLengths
    {| ml_filename := 0; ml_oldSize := 0; ml_newSize := 0; ml_percentage := 0 |}
    items.

(** The line of one file, inside [compressMapArray.forEach]. *)
Definition row_line (c : Console) (algorithm ext : string) (ml : MaxLengths)
    (totalOldSizeString totalNewSizeString totalPercentageString : string)
    (it : Item) : option string :=
  pad1 ← String_repeat " " (2 + ml_filename ml - str_length (filename it));
  pad2 ← String_repeat " " (str_length totalOldSizeString - str_length (oldSize it));
  pad3 ← String_repeat " " (str_length totalNewSizeString - str_length (newSize it));
  pad4 ← String_repeat " "
           (str_length totalPercentageString - str_length (percentage it));
  Some (chalk_dim c (dir_part c (filename it))
        +:+ chalk_blueBright c (base_part c (filename it) ext)
        +:+ chalk_dim c
              (ext +:+ pad1 +:+ pad2 +:+ oldSize it
               +:+ " │ " +:+ algorithm +:+ ": " +:+ pad3 +:+ newSize it
               +:+ " │ " +:+ pad4 +:+ percentage it)).

(** The last line but one. *)
Definition total_line (c : Console) (algorithm : string) (ml : MaxLengths)
    (totalOldSizeString totalNewSizeString totalPercentageString : string)
    : option string :=
  pad1 ← String_repeat " " (2 + ml_filename ml - 5);
  pad2 ← String_repeat " " (str_length algorithm + 2);
  Some ("Total" +:+ pad1 +:+ totalOldSizeString +:+ chalk_dim c " │ "
        +:+ pad2 +:+ totalNewSizeString +:+ chalk_dim c " │ "
        +:+ chalk_green c totalPercentageString).

(** [forEach]: the lines logged, up to the first exception. *)
Fixpoint log_rows (line : Item → option string) (items : list Item)
    : list string * Outcome unit :=
  match items with
  | [] => ([], Resolved tt)
  | it :: rest =>
      match line it with
      | None => ([], Rejected "RangeError")
      | Some l => let '(ls, r) := log_rows line rest in (l :: ls, r)
      end
  end.

(** The calls of [config.logger.info], in order, and how the function ends. *)
Definition handleOutputLogger_lines (c : Console)
    (m : list (string * CompressEntry)) (algorithm ext : string)
    : list string * Outcome unit :=
  let header :=
    [newline;
     chalk_cyan c ("✨ [vite-plugin-compression]:algorithm=" +:+ algorithm)
     +:+ " - compressed file successfully: "] in
  let compressMapArray := map (newItem c) m in
  let ml := maxLengths_of compressMapArray in
  let totalOldSize := sum_map e_oldSize m in
  let totalNewSize := sum_map e_size m in
  let totalOldSizeString := size_string c totalOldSize in
  let totalNewSizeString := size_string c totalNewSize in
  let totalPercentageString := percentage_string c totalNewSize totalOldSize in
  match log_rows
          (row_line c algorithm ext ml totalOldSizeString totalNewSizeString
             totalPercentageString) compressMapArray with
  | (ls, Rejected e) => ((header ++ ls)%list, Rejected e)
  | (ls, Resolved _) =>
      match total_line c algorithm ml totalOldSizeString totalNewSizeString
              totalPercentageString with
      | None => ((header ++ ls)%list, Rejected "RangeError")
      | Some t => ((header ++ ls ++ [t; newline])%list, Resolved tt)
      end
  end.

(** [closeBundle] with the lines of the report. The tasks are those of
    [closeBundle]; the callback of [Promise.all(handles).then] calls
    [success] only when [handleOutputLogger] returned. The result carries the
    lines logged through [config.logger.info]. *)
Definition closeBundle_lines (c : Console) (h : Host) (o : ResolvedOptions)
    (outputPath : string) (st0 : State) : Outcome unit * State * list string :=
  let files := readAllFile h outputPath (fs st0) in
  match files with
  | [] => (Resolved tt, st0, [])
  | _ :: _ =>
      let files := filterFiles files (r_filter o) in
      let compressOptions :=
        getCompressionOptions (r_algorithm o) (r_compressionOptions o) in
      let st := set_compressMap [] st0 in
      match Promise_all (map (handle h o compressOptions) files) st with
      | (Rejected e, st') => (Rejected e, st', [])
      | (Resolved _, st') =>
          if r_verbose o
          then
            match handleOutputLogger_lines c (compressMap st') (r_algorithm o)
                    (r_ext o) with
            | (ls, Rejected e) => (Rejected e, st', ls)
            | (ls, Resolved _) =>
                (Resolved tt,
                 emit EvSuccess
                   (emit (EvReport (handleOutputLogger (compressMap st'))) st'),
                 ls)
            end
          else (Resolved tt, st', [])
      end
  end.

(** The last character of a string, if any. *)
Fixpoint last_char (s : string) : option ascii :=
  match s with
  | EmptyString => None
  | String c EmptyString => Some c
  | String _ s' => last_char s'
  end.

(** ** Notions used in the further properties *)

(** The file that the task of [p] writes, and its entry in [compressMap],
    when [p] holds [n]. *)
Definition output_of (h : Host) (o : ResolvedOptions)
    (compressOptions : gmap string OptionValue) (p : string) (n : FileNode)
    : FileNode :=
  {| node_mtimeMs := fs_clock h (getOutputFileName p (r_ext o));
     node_data := result_content h o compressOptions n |}.

Definition entry_of (h : Host) (o : ResolvedOptions)
    (compressOptions : gmap string OptionValue) (p : string) (n : FileNode)
    : CompressEntry :=
  {| e_size := byteLength (result_content h o compressOptions n);
     e_oldSize := byteLength (node_data n);
     e_cname := getOutputFileName p (r_ext o) |}.



(** ** The other [handleOutputLogger] of the sources

    The variant that logs one line "old kb / algorithm: new kb" per file and
    no totals. There [compressMap] holds the sizes divided by 1024; here the
    entries keep the byte counts and the division is done where the text is
    made. [Math.max] of no arguments is -Infinity: [None]. *)

Module Compact.
Definition Math_max (l : list Z) : option Z :=
  foldr (λ x acc, Some (match acc with None => x | Some y => Z.max x y end))
    None l.

(** [' '.repeat(2 + maxKeyLength - name.length)] *)
Definition padding (maxKeyLength : option Z) (name : string) : option string :=
  match maxKeyLength with
  | None => None
  | Some mx => String_repeat " " (2 + mx - str_length name)
  end.

Definition row_line (c : Console) (outDir_basename algorithm : string)
    (maxKeyLength : option Z) (kv : string * CompressEntry) : option string :=
  let rName := relative_name c (e_cname kv.2) in
  let sizeStr :=
    toFixed2 c (js_div (e_oldSize kv.2) 1024) +:+ "kb / " +:+ algorithm +:+ ": "
    +:+ toFixed2 c (js_div (e_size kv.2) 1024) +:+ "kb" in
  pad ← padding maxKeyLength kv.1;
  Some (chalk_dim c (outDir_basename +:+ "/") +:+ chalk_blueBright c rName
        +:+ pad +:+ " " +:+ chalk_dim c sizeStr).

Fixpoint log_entries (line : string * CompressEntry → option string)
    (m : list (string * CompressEntry)) : list string * Outcome unit :=
  match m with
  | [] => ([], Resolved tt)
  | kv :: rest =>
      match line kv with
      | None => ([], Rejected "RangeError")
      | Some l => let '(ls, r) := log_entries line rest in (l :: ls, r)
      end
  end.

Definition handleOutputLogger_lines (c : Console) (outDir_basename : string)
    (m : list (string * CompressEntry)) (algorithm : string)
    : list string * Outcome unit :=
  let header :=
    newline
    +:+ chalk_cyan c ("✨ [vite-plugin-compression]:algorithm=" +:+ algorithm)
    +:+ " - compressed file successfully: " in
  let keyLengths := map (λ kv : string * CompressEntry, str_length kv.1) m in
  let maxKeyLength := Math_max keyLengths in
  match log_entries (row_line c outDir_basename algorithm maxKeyLength) m with
  | (ls, Rejected e) => (header :: ls, Rejected e)
  | (ls, Resolved _) => ((header :: ls ++ [newline])%list, Resolved tt)
  end.
End Compact.

(** ** Fixtures of the examples of the report text *)

Module Plain.
(** Decimal text with two digits after the point, rounded half up from the
    exact quotient (for quotients that are not negative). It stands in for
    [toFixed(2)], which rounds the binary double, in the examples only: the
    properties of the report hold for every [Console]. *)
Definition two_digits (k : Z) : string :=
  if k <? 10 then "0" +:+ pretty k else pretty k.

Definition fixed2 (x : JsNumber) : string :=
  match x with
  | Finite q =>
      let k := (200 * Qnum q + Zpos (Qden q)) / (2 * Zpos (Qden q)) in
      pretty (k / 100) +:+ "." +:+ two_digits (k mod 100)
  | PosInfinity => "Infinity"
  | NegInfinity => "-Infinity"
  | NaN => "NaN"
  end.

(** No colours, names as they are. *)
Definition console : Console :=
  {| toFixed2 := fixed2;
     relative_name := λ cname, cname;
     dir_part := λ _, "";
     base_part := λ filename ext,
       if endsWith filename ext
       then substring 0 (String.length filename - String.length ext) filename
       else filename;
     chalk_cyan := λ s, s;
     chalk_dim := λ s, s;
     chalk_blueBright := λ s, s;
     chalk_green := λ s, s |}.
End Plain.

(** The file that a task started for [p] in [s] would process: [None] when
    the file is missing or the task would return early. *)
Definition will_process (o : ResolvedOptions) (s : State) (p : string)
    : option FileNode :=
  match fs s !! p with
  | Some n => if decide (skip_condition o s p n) then None else Some n
  | None => None
  end.

(** ** The task with the timing of the disk

    [handle] takes [fs.remove] as done at the call and [fs.writeFile] as
    always successful. [handle_io] is the same task with what the
    environment decides made explicit in a [Schedule]: the code calls
    [fs.remove(filePath)] without awaiting it, so the file may still be on
    disk while the task goes on, and [fs.writeFile] may reject. A removal
    that has been requested and has not completed is kept in [io_pending].
    A removal that fails is left out: the code drops its promise. *)

(** How [fs.writeFile(cname, content)] ends: written, or rejected, leaving
    at [cname] what was there ([None]) or some bytes ([Some]). *)
Inductive WriteResult : Type :=
  | WriteOk
  | WriteFailed (residue : option Buffer).

Record Schedule : Type := {
  writeFile_result : string → WriteResult;
  (** whether the removal requested for a path has completed by the time
      the task calls the codec *)
  unlink_early : string → bool
}.

Record IoState : Type := {
  io_state : State;
  io_pending : list string
}.

Definition IoAsync (A : Type) : Type := IoState → Outcome A * IoState.

#[global] Instance IoAsync_ret : MRet IoAsync := λ A a s, (Resolved a, s).

#[global] Instance IoAsync_bind : MBind IoAsync := λ A B k m s,
  match m s with
  | (Resolved a, s') => k a s'
  | (Rejected e, s') => (Rejected e, s')
  end.

(** An action of [Async], with the pending removals left as they are. *)
Definition lift {A} (m : Async A) : IoAsync A := λ s,
  let '(r, st') := m (io_state s) in
  (r, {| io_state := st'; io_pending := io_pending s |}).

Definition io_try_catch {A} (m : IoAsync A) (handler : string → IoAsync A)
    : IoAsync A :=
  λ s,
  match m s with
  | (Resolved a, s') => (Resolved a, s')
  | (Rejected e, s') => handler e s'
  end.

(** [fs.remove(filePath)], not awaited: the call returns at once. *)
Definition io_remove (sch : Schedule) (filePath : string) : IoAsync unit := λ s,
  if unlink_early sch filePath
  then (Resolved tt,
        {| io_state :=
             emit (EvRemove filePath)
               (set_fs (delete filePath (fs (io_state s))) (io_state s));
           io_pending := io_pending s |})
  else (Resolved tt,
        {| io_state := emit (EvRemove filePath) (io_state s);
           io_pending := io_pending s ++ [filePath] |}).

(** [await fs.writeFile(cname, content)] *)
Definition io_writeFile (sch : Schedule) (h : Host) (cname : string)
    (content : Buffer) : IoAsync unit := λ s,
  match writeFile_result sch cname with
  | WriteOk =>
      (Resolved tt,
       {| io_state :=
            emit (EvWriteFile cname content)
              (set_fs (<[cname := {| node_mtimeMs := fs_clock h cname;
                                     node_data := content |}]>
                         (fs (io_state s))) (io_state s));
          io_pending := io_pending s |})
  | WriteFailed residue =>
      (Rejected "EIO",
       {| io_state :=
            emit (EvWriteFile cname content)
              (set_fs (match residue with
                       | Some bytes =>
                           <[cname := {| node_mtimeMs := fs_clock h cname;
                                         node_data := bytes |}]>
                             (fs (io_state s))
                       | None => fs (io_state s)
                       end) (io_state s));
          io_pending := io_pending s |})
  end.

(** The body of [files.map(async (filePath) => ...)], as [handle]. *)
Definition handle_io (sch : Schedule) (h : Host) (o : ResolvedOptions)
    (compressOptions : gmap string OptionValue) (filePath : string)
    : IoAsync unit :=
  stats ← lift (fs_stat filePath);
  let oldSize := stat_size stats in
  cached ← lift (mtimeCache_get filePath);
  if (mtimeMs stats <=? default 0 cached) || (oldSize <? r_threshold o)
  then mret tt
  else
    content ← lift (fs_readFile filePath);
    _ ← (if r_deleteOriginFile o then io_remove sch filePath else mret tt);
    content ← io_try_catch
      (lift (compress h filePath content (r_algorithm o) compressOptions))
      (λ _, _ ← lift (logger_error ("compress error:" +:+ filePath));
            mret content);
    let newSize := byteLength content in
    let cname := getOutputFileName filePath (r_ext o) in
    _ ← lift (compressMap_set filePath
                {| e_size := newSize; e_oldSize := oldSize; e_cname := cname |});
    _ ← io_writeFile sch h cname content;
    lift (mtimeCache_set filePath (Date_now h filePath)).

(** The disk once every pending removal has completed. *)
Definition complete_removes (s : IoState) : IoState :=
  {| io_state :=
       set_fs (foldr delete (fs (io_state s)) (io_pending s)) (io_state s);
     io_pending := [] |}.

(** What a task of [handle_io] that passes the early [return] logs, and the
    state it leaves. *)
Definition write_ok (sch : Schedule) (cname : string) : bool :=
  match writeFile_result sch cname with
  | WriteOk => true
  | WriteFailed _ => false
  end.

Definition io_events (sch : Schedule) (h : Host) (o : ResolvedOptions)
    (compressOptions : gmap string OptionValue) (p : string) (n : FileNode)
    : list Event :=
  [EvStat p; EvReadFile p] ++
  (if r_deleteOriginFile o then [EvRemove p] else []) ++
  [EvCompress p (r_algorithm o)] ++
  (if zlib h (r_algorithm o) (node_data n) compressOptions is Some _ then []
   else [EvLoggerError ("compress error:" +:+ p)]) ++
  [EvWriteFile (getOutputFileName p (r_ext o))
     (result_content h o compressOptions n)] ++
  (if write_ok sch (getOutputFileName p (r_ext o))
   then [EvCacheSet p (Date_now h p)] else []).

Definition io_disk (sch : Schedule) (h : Host) (o : ResolvedOptions)
    (compressOptions : gmap string OptionValue) (p : string) (n : FileNode)
    (f : gmap string FileNode) : gmap string FileNode :=
  let f1 :=
    if r_deleteOriginFile o && unlink_early sch p then delete p f else f in
  match writeFile_result sch (getOutputFileName p (r_ext o)) with
  | WriteOk =>
      <[getOutputFileName p (r_ext o) := output_of h o compressOptions p n]> f1
  | WriteFailed (Some bytes) =>
      <[getOutputFileName p (r_ext o) :=
          {| node_mtimeMs := fs_clock h (getOutputFileName p (r_ext o));
             node_data := bytes |}]> f1
  | WriteFailed None => f1
  end.

Definition io_process (sch : Schedule) (h : Host) (o : ResolvedOptions)
    (compressOptions : gmap string OptionValue) (p : string) (n : FileNode)
    (s : IoState) : Outcome unit * IoState :=
  (if write_ok sch (getOutputFileName p (r_ext o))
   then Resolved tt else Rejected "EIO",
   {| io_state :=
        {| fs := io_disk sch h o compressOptions p n (fs (io_state s));
           mtimeCache :=
             if write_ok sch (getOutputFileName p (r_ext o))
             then <[p := Date_now h p]> (mtimeCache (io_state s))
             else mtimeCache (io_state s);
           compressMap :=
             jsmap_set p (entry_of h o compressOptions p n)
               (compressMap (io_state s));
           trace := trace (io_state s) ++ io_events sch h o compressOptions p n |};
      io_pending :=
        io_pending s ++
        (if r_deleteOriginFile o && negb (unlink_early sch p) then [p] else []) |}).

(** ** Fixtures of the examples of a failing codec *)

Module Failure.
(** One file that the stand-in codec rejects. *)
Definition disk : State :=
  Fixtures.disk
    [("/dist/a.js", Fixtures.file 1000 (Byte.x00 :: Fixtures.bytes 1500))].

Definition copts : gmap string OptionValue := getCompressionOptions "gzip" ∅.

(** The state after the task of that file. *)
Definition after : State :=
  (handle (Fixtures.host 5000) (resolveOptions no_options) copts "/dist/a.js"
     disk).2.

(** Writes succeed; a requested removal has not completed when the codec is
    called. *)
Definition late_unlink : Schedule :=
  {| writeFile_result := λ _, WriteOk; unlink_early := λ _, false |}.

(** The write is rejected and leaves nothing. *)
Definition failing_write : Schedule :=
  {| writeFile_result := λ _, WriteFailed None; unlink_early := λ _, true |}.

Definition start : IoState := {| io_state := disk; io_pending := [] |}.
End Failure.

(** ** Properties of the helper functions *)

Lemma prefix_dot (ext : string) : String.prefix "." ("." +:+ ext) = true.
Proof. cbn. by destruct ext. Qed.

Lemma append_eq_self (p s : string) : p +:+ s = p → s = "".
Proof. induction p as [|c p IH]; cbn; [done|]. intros [= H]. auto. Qed.

Lemma getOutputFileName_ne (p ext : string) : getOutputFileName p ext ≠ p.
Proof.
  unfold getOutputFileName. intros H. apply append_eq_self in H.
  destruct (String.prefix "." ext) eqn:E.
  - subst ext. discriminate E.
  - discriminate H.
Qed.

(** C7. The output path is the source path followed by the normalized
    extension; the normalized extension begins with a dot, which is added
    exactly when the configured extension does not begin with one. Without an
    explicit extension gzip gives ".gz" and brotliCompress gives ".br"; gzip
    with the extension "zz" turns foo.js into foo.js.zz. *)
Theorem C7_output_path (options : VitePluginCompression) (filepath ext0 : string) :
  (∃ normalized,
      getOutputFileName filepath ext0 = filepath +:+ normalized
      ∧ String.prefix "." normalized = true
      ∧ (String.prefix "." ext0 = true → normalized = ext0)
      ∧ (String.prefix "." ext0 = false → normalized = "." +:+ ext0))
  ∧ (ext options = None →
     (algorithm options = None ∨ algorithm options = Some "gzip") →
     resolveExt options = ".gz"
     ∧ getOutputFileName filepath (resolveExt options) = filepath +:+ ".gz")
  ∧ (ext options = None → algorithm options = Some "brotliCompress" →
     resolveExt options = ".br"
     ∧ getOutputFileName filepath (resolveExt options) = filepath +:+ ".br")
  ∧ getOutputFileName "foo.js"
      (resolveExt (Fixtures.with_algorithm_ext "gzip" (Some "zz"))) = "foo.js.zz".
Proof.
  repeat split.
  - unfold getOutputFileName. destruct (String.prefix "." ext0) eqn:E.
    + exists ext0. by rewrite E.
    + exists ("." +:+ ext0). split; [done|]. split; [apply prefix_dot|]. by split.
  - unfold resolveExt. rewrite H. destruct H0 as [-> | ->]; reflexivity.
  - unfold resolveExt. rewrite H. destruct H0 as [-> | ->]; reflexivity.
  - unfold resolveExt. rewrite H, H0. reflexivity.
  - unfold resolveExt. rewrite H, H0. reflexivity.
Qed.

Lemma C7_output_path_witness :
  getOutputFileName "foo.js" (resolveExt no_options) = "foo.js" +:+ ".gz"
  ∧ getOutputFileName "foo.js"
      (resolveExt (Fixtures.with_algorithm_ext "brotliCompress" None))
    = "foo.js" +:+ ".br".
Proof.
  split.
  - apply (C7_output_path no_options "foo.js" "").
    + reflexivity.
    + left. reflexivity.
  - apply (C7_output_path (Fixtures.with_algorithm_ext "brotliCompress" None)
             "foo.js" "").
    + reflexivity.
    + reflexivity.
Defined.

(** C10. With algorithm deflate or deflateRaw and no [ext] option the
    effective extension is the empty string, and the output path of every
    source path is that path followed by a single dot. *)
Theorem C10_deflate_trailing_dot (options : VitePluginCompression) (p : string) :
  ext options = None →
  (algorithm options = Some "deflate" ∨ algorithm options = Some "deflateRaw") →
  resolveExt options = ""
  ∧ r_ext (resolveOptions options) = ""
  ∧ getOutputFileName p (r_ext (resolveOptions options)) = p +:+ ".".
Proof.
  intros He Ha.
  assert (resolveExt options = "") as Hr.
  { unfold resolveExt. rewrite He. destruct Ha as [-> | ->]; reflexivity. }
  cbn. rewrite Hr. done.
Qed.

Lemma C10_deflate_trailing_dot_witness :
  getOutputFileName "/dist/index.js"
    (r_ext (resolveOptions (Fixtures.with_algorithm_ext "deflate" None)))
  = "/dist/index.js.".
Proof.
  apply (C10_deflate_trailing_dot (Fixtures.with_algorithm_ext "deflate" None)
           "/dist/index.js").
  - reflexivity.
  - left. reflexivity.
Defined.

Lemma defaultOptions_unknown (algorithm : string) :
  ¬ known_algorithm algorithm → defaultOptions !! algorithm = None.
Proof.
  unfold known_algorithm. intros Hn. unfold defaultOptions.
  rewrite !lookup_insert_ne, lookup_empty; [done|..]; intros <-; apply Hn; auto.
Qed.

(** C9. The resolver returns the baseline of the algorithm (level 9, the
    best compression, for gzip, deflate and deflateRaw; quality 11, the
    maximum, and text mode for brotliCompress) with the user's options merged
    on top: a key of the user wins. For a name outside the known set the
    baseline is empty and the user's options come back unchanged. The
    resolver is a total function: it never throws. *)
Theorem C9_getCompressionOptions (algorithm : string)
    (userOptions : gmap string OptionValue) :
  (∀ k v, userOptions !! k = Some v →
          getCompressionOptions algorithm userOptions !! k = Some v)
  ∧ (algorithm = "gzip" ∨ algorithm = "deflate" ∨ algorithm = "deflateRaw" →
     ∀ k, userOptions !! k = None →
          getCompressionOptions algorithm userOptions !! k
          = ({["level" := VNumber 9]} : gmap string OptionValue) !! k)
  ∧ (algorithm = "brotliCompress" →
     ∀ k, userOptions !! k = None →
          getCompressionOptions algorithm userOptions !! k
          = ({["params" := VObject (<[1 := 11]> (<[0 := 1]> ∅))]}
               : gmap string OptionValue) !! k)
  ∧ (¬ known_algorithm algorithm →
     getCompressionOptions algorithm userOptions = userOptions).
Proof.
  unfold getCompressionOptions. split; [|split; [|split]].
  - intros k v Hk. by apply lookup_union_Some_l.
  - intros Ha k Hk. rewrite lookup_union_r by done.
    destruct Ha as [-> | [-> | ->]]; reflexivity.
  - intros -> k Hk. rewrite lookup_union_r by done. reflexivity.
  - intros Hn. rewrite defaultOptions_unknown by done. cbn. apply (right_id_L ∅ (∪)).
Qed.

Lemma C9_getCompressionOptions_witness :
  getCompressionOptions "gzip" {["level" := VNumber 1]} !! "level" = Some (VNumber 1)
  ∧ getCompressionOptions "deflate" {["memLevel" := VNumber 8]} !! "level"
    = Some (VNumber 9)
  ∧ getCompressionOptions "zstd" {["level" := VNumber 3]} = {["level" := VNumber 3]}.
Proof.
  split; [|split].
  - apply (C9_getCompressionOptions "gzip" {["level" := VNumber 1]}). reflexivity.
  - rewrite (proj1 (proj2 (C9_getCompressionOptions "deflate" {["memLevel" := VNumber 8]}))).
    + reflexivity.
    + right. left. reflexivity.
    + reflexivity.
  - apply (C9_getCompressionOptions "zstd" {["level" := VNumber 3]}).
    unfold known_algorithm. intros [H | [H | [H | H]]]; discriminate H.
Defined.

(** ** The task of one file *)

Lemma State_eq (st st' : State) :
  fs st = fs st' → mtimeCache st = mtimeCache st' →
  compressMap st = compressMap st' → trace st = trace st' → st = st'.
Proof. destruct st, st'. cbn. by intros -> -> -> ->. Qed.

Lemma fs_emit e st : fs (emit e st) = fs st. Proof. done. Qed.
Lemma mtimeCache_emit e st : mtimeCache (emit e st) = mtimeCache st. Proof. done. Qed.
Lemma compressMap_emit e st : compressMap (emit e st) = compressMap st. Proof. done. Qed.
Lemma trace_emit e st : trace (emit e st) = (trace st ++ [e])%list. Proof. done. Qed.
Lemma fs_set_fs f st : fs (set_fs f st) = f. Proof. done. Qed.
Lemma mtimeCache_set_fs f st : mtimeCache (set_fs f st) = mtimeCache st. Proof. done. Qed.
Lemma compressMap_set_fs f st : compressMap (set_fs f st) = compressMap st. Proof. done. Qed.
Lemma trace_set_fs f st : trace (set_fs f st) = trace st. Proof. done. Qed.
Lemma fs_set_mtimeCache c st : fs (set_mtimeCache c st) = fs st. Proof. done. Qed.
Lemma mtimeCache_set_mtimeCache c st : mtimeCache (set_mtimeCache c st) = c. Proof. done. Qed.
Lemma compressMap_set_mtimeCache c st :
  compressMap (set_mtimeCache c st) = compressMap st.
Proof. done. Qed.
Lemma trace_set_mtimeCache c st : trace (set_mtimeCache c st) = trace st. Proof. done. Qed.
Lemma fs_set_compressMap m st : fs (set_compressMap m st) = fs st. Proof. done. Qed.
Lemma mtimeCache_set_compressMap m st :
  mtimeCache (set_compressMap m st) = mtimeCache st.
Proof. done. Qed.
Lemma compressMap_set_compressMap m st : compressMap (set_compressMap m st) = m.
Proof. done. Qed.
Lemma trace_set_compressMap m st : trace (set_compressMap m st) = trace st.
Proof. done. Qed.

Create Rewrite HintDb state.

#[global] Hint Rewrite fs_emit mtimeCache_emit compressMap_emit trace_emit
  fs_set_fs mtimeCache_set_fs compressMap_set_fs trace_set_fs
  fs_set_mtimeCache mtimeCache_set_mtimeCache compressMap_set_mtimeCache
  trace_set_mtimeCache fs_set_compressMap mtimeCache_set_compressMap
  compressMap_set_compressMap trace_set_compressMap : state.

Lemma bind_Resolved {A B} (m : Async A) (k : A → Async B) st a st' :
  m st = (Resolved a, st') → (m ≫= k) st = k a st'.
Proof. intros H. unfold mbind, Async_bind. by rewrite H. Qed.

Section handle_facts.
Context (h : Host) (o : ResolvedOptions) (copts : gmap string OptionValue).

Lemma handle_missing p st :
  fs st !! p = None →
  handle h o copts p st = (Rejected "ENOENT", emit (EvStat p) st).
Proof.
  intros Hp. unfold handle, mbind, Async_bind, fs_stat. by rewrite Hp.
Qed.

Lemma handle_skip p st n :
  fs st !! p = Some n →
  skip_condition o st p n →
  handle h o copts p st = (Resolved tt, emit (EvStat p) st).
Proof.
  intros Hp Hc. unfold handle, mbind, Async_bind, fs_stat, mtimeCache_get.
  rewrite Hp. cbn. destruct (_ || _) eqn:E; [done|].
  apply orb_false_iff in E as [E1 E2].
  apply Z.leb_gt in E1. apply Z.ltb_ge in E2.
  unfold skip_condition in Hc. lia.
Qed.

Lemma handle_process p st n :
  fs st !! p = Some n →
  ¬ skip_condition o st p n →
  handle h o copts p st =
    (Resolved tt, process_state h o copts p n st).
Proof.
  intros Hp Hc. unfold handle.
  erewrite bind_Resolved; [|unfold fs_stat; rewrite Hp; reflexivity].
  erewrite bind_Resolved; [|reflexivity].
  replace (_ || _) with false; cycle 1.
  { symmetry. apply orb_false_iff. unfold skip_condition in Hc. cbn.
    rewrite Z.leb_gt, Z.ltb_ge. lia. }
  erewrite bind_Resolved; [|unfold fs_readFile; rewrite fs_emit, Hp; reflexivity].
  unfold process_state, process_events, result_content.
  destruct (r_deleteOriginFile o);
    (erewrite bind_Resolved; [|reflexivity]);
    unfold try_catch, compress;
    destruct (zlib h (r_algorithm o) (node_data n) copts) eqn:Ez;
    (erewrite bind_Resolved; [|reflexivity]);
    (erewrite bind_Resolved; [|reflexivity]);
    (erewrite bind_Resolved; [|reflexivity]);
    unfold mtimeCache_set; f_equal; apply State_eq;
    cbn [fs mtimeCache compressMap trace];
    autorewrite with state; rewrite <- ?app_assoc; reflexivity.
Qed.

Lemma process_events_length p n : (2 ≤ length (process_events h o copts p n))%nat.
Proof. unfold process_events. cbn. lia. Qed.

Lemma emit_stat_not_process p st n :
  emit (EvStat p) st ≠
    process_state h o copts p n st.
Proof.
  unfold emit, process_state. intros [= _ _ _ Ht]. apply app_inv_head in Ht.
  pose proof (process_events_length p n) as Hl. rewrite <- Ht in Hl. cbn in Hl. lia.
Qed.

Lemma handle_skip_iff p st n :
  fs st !! p = Some n →
  (handle h o copts p st).2 = emit (EvStat p) st ↔ skip_condition o st p n.
Proof.
  intros Hp. split.
  - intros He. destruct (decide (skip_condition o st p n)) as [|Hc]; [done|].
    rewrite (handle_process p st n Hp Hc) in He. cbn in He.
    symmetry in He. by apply emit_stat_not_process in He.
  - intros Hc. by rewrite (handle_skip p st n Hp Hc).
Qed.

(** C3. A task returns before reading the file (no read, no compression, no
    write, no cache update: it only adds the stat to the trace) if and only if
    the file's mtime is at most the recorded timestamp of its path (0 when
    there is none) or its size is below the threshold. Otherwise it reads,
    calls the codec, writes and records. A fresh file of exactly [threshold]
    bytes is compressed, a fresh file one byte smaller is skipped. *)
Theorem C3_skip_iff (p : string) (st : State) (n : FileNode) :
  fs st !! p = Some n →
  ((handle h o copts p st).2 = emit (EvStat p) st ↔ skip_condition o st p n)
  ∧ (¬ skip_condition o st p n →
     ∃ evs : list Event, trace (handle h o copts p st).2 = (trace st ++ evs)%list
            ∧ In (EvReadFile p) evs
            ∧ In (EvCompress p (r_algorithm o)) evs
            ∧ In (EvWriteFile (getOutputFileName p (r_ext o))
                    (result_content h o copts n)) evs
            ∧ In (EvCacheSet p (Date_now h p)) evs)
  ∧ (default 0 (mtimeCache st !! p) < node_mtimeMs n →
     (byteLength (node_data n) = r_threshold o →
      ∃ evs : list Event, trace (handle h o copts p st).2 = (trace st ++ evs)%list
             ∧ In (EvCompress p (r_algorithm o)) evs)
     ∧ (byteLength (node_data n) = r_threshold o - 1 →
        (handle h o copts p st).2 = emit (EvStat p) st)).
Proof.
  intros Hp.
  assert (¬ skip_condition o st p n →
     ∃ evs : list Event, trace (handle h o copts p st).2 = (trace st ++ evs)%list
            ∧ In (EvReadFile p) evs
            ∧ In (EvCompress p (r_algorithm o)) evs
            ∧ In (EvWriteFile (getOutputFileName p (r_ext o))
                    (result_content h o copts n)) evs
            ∧ In (EvCacheSet p (Date_now h p)) evs) as Hproc.
  { intros Hc. rewrite (handle_process p st n Hp Hc). cbn.
    exists (process_events h o copts p n). split; [done|].
    unfold process_events. rewrite !in_app_iff. cbn. tauto. }
  split; [|split].
  - by apply handle_skip_iff.
  - exact Hproc.
  - intros Hfresh. split.
    + intros Hs. destruct Hproc as (evs & He & _ & Hc & _).
      { unfold skip_condition. lia. }
      eauto.
    + intros Hs. rewrite (handle_skip p st n Hp); [done|].
      unfold skip_condition. lia.
Qed.

End handle_facts.

Lemma C3_skip_iff_witness :
  (∃ evs : list Event,
      trace (handle (Fixtures.host 5000) (resolveOptions no_options) ∅ "/dist/a.js"
               (Fixtures.disk [("/dist/a.js", Fixtures.file 1000 (Fixtures.bytes 1025))])).2
      = ([] ++ evs)%list ∧ In (EvCompress "/dist/a.js" "gzip") evs)
  ∧ (handle (Fixtures.host 5000) (resolveOptions no_options) ∅ "/dist/a.js"
       (Fixtures.disk [("/dist/a.js", Fixtures.file 1000 (Fixtures.bytes 1024))])).2
    = emit (EvStat "/dist/a.js")
        (Fixtures.disk [("/dist/a.js", Fixtures.file 1000 (Fixtures.bytes 1024))]).
Proof.
  split.
  - apply (C3_skip_iff (Fixtures.host 5000) (resolveOptions no_options) ∅
             "/dist/a.js"
             (Fixtures.disk [("/dist/a.js", Fixtures.file 1000 (Fixtures.bytes 1025))])
             (Fixtures.file 1000 (Fixtures.bytes 1025))).
    + reflexivity.
    + vm_compute. reflexivity.
    + vm_compute. reflexivity.
  - apply (C3_skip_iff (Fixtures.host 5000) (resolveOptions no_options) ∅
             "/dist/a.js"
             (Fixtures.disk [("/dist/a.js", Fixtures.file 1000 (Fixtures.bytes 1024))])
             (Fixtures.file 1000 (Fixtures.bytes 1024))).
    + reflexivity.
    + vm_compute. reflexivity.
    + vm_compute. reflexivity.
Defined.

(** ** The task with the timing of the disk *)

Lemma io_bind_Resolved {A B} (m : IoAsync A) (k : A → IoAsync B) s a s' :
  m s = (Resolved a, s') → (m ≫= k) s = k a s'.
Proof. intros H. unfold mbind, IoAsync_bind. by rewrite H. Qed.

Lemma io_bind_Rejected {A B} (m : IoAsync A) (k : A → IoAsync B) s e s' :
  m s = (Rejected e, s') → (m ≫= k) s = (Rejected e, s').
Proof. intros H. unfold mbind, IoAsync_bind. by rewrite H. Qed.

Lemma IoState_eq (s s' : IoState) :
  io_state s = io_state s' → io_pending s = io_pending s' → s = s'.
Proof. destruct s, s'. cbn. by intros -> ->. Qed.

Lemma handle_io_process (sch : Schedule) (h : Host) (o : ResolvedOptions)
    (copts : gmap string OptionValue) (p : string) (s : IoState) (n : FileNode) :
  fs (io_state s) !! p = Some n →
  ¬ skip_condition o (io_state s) p n →
  handle_io sch h o copts p s = io_process sch h o copts p n s.
Proof.
  intros Hp Hc. unfold handle_io.
  erewrite io_bind_Resolved;
    [|unfold lift, fs_stat; rewrite Hp; reflexivity].
  erewrite io_bind_Resolved; [|reflexivity].
  replace (_ || _) with false; cycle 1.
  { symmetry. apply orb_false_iff. unfold skip_condition in Hc. cbn.
    rewrite Z.leb_gt, Z.ltb_ge. lia. }
  erewrite io_bind_Resolved;
    [|unfold lift, fs_readFile; cbn [io_state]; rewrite fs_emit, Hp; reflexivity].
  unfold io_process, io_events, io_disk, write_ok, output_of, entry_of,
    result_content.
  destruct (r_deleteOriginFile o), (unlink_early sch p) eqn:Eu; cbn [andb negb];
    (erewrite io_bind_Resolved; [|unfold io_remove; rewrite ?Eu; reflexivity]).
  all: unfold io_try_catch, lift, compress; cbn [io_state io_pending].
  all: destruct (zlib h (r_algorithm o) (node_data n) copts) eqn:Ez.
  all: (erewrite io_bind_Resolved; [|reflexivity]).
  all: (erewrite io_bind_Resolved; [|reflexivity]).
  all: unfold io_writeFile; cbn [io_state io_pending].
  all: destruct (writeFile_result sch (getOutputFileName p (r_ext o)))
         as [|[bytes|]] eqn:Ew.
  all: first [ erewrite io_bind_Resolved; [|reflexivity]
             | erewrite io_bind_Rejected; [|reflexivity] ].
  all: unfold lift, mtimeCache_set; cbn [io_state io_pending].
  all: f_equal; apply IoState_eq; cbn [io_state io_pending];
    [apply State_eq; cbn [fs mtimeCache compressMap trace];
     autorewrite with state; rewrite <- ?app_assoc; try reflexivity
    | rewrite ?app_nil_r; try reflexivity].
Qed.

Lemma foldr_delete_None (l : list string) (f : gmap string FileNode) (x : string) :
  f !! x = None ∨ In x l → foldr delete f l !! x = None.
Proof.
  induction l as [|y l IH]; simpl.
  - intros [H | []]. done.
  - intros H. destruct (decide (y = x)) as [-> | Hne].
    + apply lookup_delete_eq.
    + rewrite lookup_delete_ne by done. apply IH.
      destruct H as [H | [H | H]]; [by left | done | by right].
Qed.

(** C6, as stated, fails: [fs.remove] is called and not awaited, so the
    original need not be gone when the codec is called or when it fails. In
    the run below the removal has been requested and the codec has failed,
    and the original is still on disk when the task ends. *)
Lemma C6_original_still_on_disk_counterexample :
  r_deleteOriginFile (resolveOptions Fixtures.with_delete) = true
  ∧ In (EvLoggerError "compress error:/dist/a.js")
       (trace (io_state
                 (handle_io Failure.late_unlink (Fixtures.host 5000)
                    (resolveOptions Fixtures.with_delete) Failure.copts
                    "/dist/a.js" Failure.start).2))
  ∧ fs (io_state
          (handle_io Failure.late_unlink (Fixtures.host 5000)
             (resolveOptions Fixtures.with_delete) Failure.copts
             "/dist/a.js" Failure.start).2) !! "/dist/a.js"
    = Some (Fixtures.file 1000 (Byte.x00 :: Fixtures.bytes 1500))
  ∧ io_pending
      (handle_io Failure.late_unlink (Fixtures.host 5000)
         (resolveOptions Fixtures.with_delete) Failure.copts
         "/dist/a.js" Failure.start).2
    = ["/dist/a.js"].
Proof.
  vm_compute. split; [reflexivity|]. split; [|split; reflexivity].
  right. right. right. right. left. reflexivity.
Qed.

(** C6, amended. With delete-original configured, a task that gets past the
    early return requests the removal of the original ([fs.remove] is
    called, not awaited) after it has read the file and before it calls the
    codec, and requests no removal after that, whatever the codec and the
    write do: when the write is rejected the task ends there, the write
    being its last action. So the removal has been requested also when the
    codec fails; the original is gone once the request has completed. *)
Theorem C6_remove_requested_after_read_before_codec (sch : Schedule) (h : Host)
    (o : ResolvedOptions) (copts : gmap string OptionValue) (p : string)
    (s : IoState) (n : FileNode) :
  r_deleteOriginFile o = true →
  fs (io_state s) !! p = Some n →
  ¬ skip_condition o (io_state s) p n →
  ∃ rest : list Event,
    trace (io_state (handle_io sch h o copts p s).2)
    = (trace (io_state s)
         ++ [EvStat p; EvReadFile p; EvRemove p; EvCompress p (r_algorithm o)]
         ++ rest)%list
    ∧ (∀ q, ¬ In (EvRemove q) rest)
    ∧ (∀ residue,
         writeFile_result sch (getOutputFileName p (r_ext o)) = WriteFailed residue →
         (handle_io sch h o copts p s).1 = Rejected "EIO"
         ∧ ∃ pre : list Event,
             rest = (pre ++ [EvWriteFile (getOutputFileName p (r_ext o))
                               (result_content h o copts n)])%list)
    ∧ (unlink_early sch p = true →
       fs (io_state (handle_io sch h o copts p s).2) !! p = None)
    ∧ (unlink_early sch p = false →
       fs (io_state (handle_io sch h o copts p s).2) !! p = Some n
       ∧ io_pending (handle_io sch h o copts p s).2 = (io_pending s ++ [p])%list)
    ∧ fs (io_state (complete_removes (handle_io sch h o copts p s).2)) !! p = None.
Proof.
  intros Hd Hp Hc. rewrite (handle_io_process sch h o copts p s n Hp Hc).
  unfold io_process, io_events, io_disk, write_ok. rewrite Hd.
  cbn [snd fst io_state io_pending trace fs andb].
  assert (getOutputFileName p (r_ext o) ≠ p) as Hcn by apply getOutputFileName_ne.
  assert (∀ f : gmap string FileNode,
            match writeFile_result sch (getOutputFileName p (r_ext o)) with
            | WriteOk =>
                <[getOutputFileName p (r_ext o) :=
                    {| node_mtimeMs := fs_clock h (getOutputFileName p (r_ext o));
                       node_data := result_content h o copts n |}]> f
            | WriteFailed (Some bytes) =>
                <[getOutputFileName p (r_ext o) :=
                    {| node_mtimeMs := fs_clock h (getOutputFileName p (r_ext o));
                       node_data := bytes |}]> f
            | WriteFailed None => f
            end !! p = f !! p) as Hw.
  { intros f. destruct (writeFile_result sch _) as [|[bytes|]];
      rewrite ?lookup_insert_ne by done; done. }
  unfold output_of. eexists. split; [reflexivity|]. split; [|split; [|split; [|split]]].
  - intros q Hq. apply in_app_iff in Hq as [Hq | Hq].
    { destruct (zlib h (r_algorithm o) (node_data n) copts); cbn in Hq; [done|].
      destruct Hq as [Hq | []]. discriminate Hq. }
    cbn in Hq. destruct Hq as [Hq | Hq]; [discriminate Hq|].
    destruct (writeFile_result sch _); cbn in Hq; [|done].
    destruct Hq as [Hq | []]. discriminate Hq.
  - intros residue Hres. rewrite Hres. split; [done|].
    eexists. cbn. rewrite ?app_nil_r. reflexivity.
  - intros Hu. rewrite Hu, Hw. apply lookup_delete_eq.
  - intros Hu. rewrite Hu, Hw. cbn. done.
  - unfold complete_removes. cbn [io_state io_pending fs set_fs].
    apply foldr_delete_None.
    destruct (unlink_early sch p); cbn.
    + left. rewrite Hw. apply lookup_delete_eq.
    + right. apply in_app_iff. right. by left.
Qed.

Lemma C6_remove_requested_after_read_before_codec_witness :
  (handle_io Failure.failing_write (Fixtures.host 5000)
     (resolveOptions Fixtures.with_delete) Failure.copts "/dist/a.js"
     Failure.start).1 = Rejected "EIO"
  ∧ fs (io_state
          (complete_removes
             (handle_io Failure.failing_write (Fixtures.host 5000)
                (resolveOptions Fixtures.with_delete) Failure.copts "/dist/a.js"
                Failure.start).2)) !! "/dist/a.js" = None.
Proof.
  destruct (C6_remove_requested_after_read_before_codec Failure.failing_write
              (Fixtures.host 5000) (resolveOptions Fixtures.with_delete)
              Failure.copts "/dist/a.js" Failure.start
              (Fixtures.file 1000 (Byte.x00 :: Fixtures.bytes 1500)))
    as (rest & _ & _ & Hw & _ & _ & H).
  - reflexivity.
  - reflexivity.
  - unfold skip_condition. vm_compute.
    intros [H | H]; [apply H | discriminate H]; reflexivity.
  - split; [|exact H]. apply (Hw None). reflexivity.
Defined.

(** C4, as stated, fails for the unset threshold: the factory's default is
    1025, so a fresh file of 10 bytes is not compressed under the default
    options. *)
Lemma C4_unset_threshold_counterexample :
  ¬ (∀ (h : Host) (options : VitePluginCompression) (p : string) (st : State)
       (n : FileNode),
        threshold options = None →
        fs st !! p = Some n →
        default 0 (mtimeCache st !! p) < node_mtimeMs n →
        ∃ evs : list Event,
          trace (handle h (resolveOptions options)
                   (getCompressionOptions
                      (r_algorithm (resolveOptions options))
                      (r_compressionOptions (resolveOptions options))) p st).2
          = (trace st ++ evs)%list
          ∧ In (EvCompress p (r_algorithm (resolveOptions options))) evs).
Proof.
  intros H.
  destruct (H (Fixtures.host 5000) no_options "/dist/a.js"
              (Fixtures.disk [("/dist/a.js", Fixtures.file 1000 (Fixtures.bytes 10))])
              (Fixtures.file 1000 (Fixtures.bytes 10)))
    as (evs & He & Hin); [reflexivity | reflexivity | reflexivity |].
  vm_compute in He. subst evs.
  cbn in Hin. destruct Hin as [Hin | []]. discriminate Hin.
Qed.

(** C4, amended. A threshold of 0 gives no exclusion by size: a task then
    returns early exactly when the file is not fresh. An unset threshold is
    the default 1025: a task then returns early exactly when the file is not
    fresh or is smaller than 1025 bytes. *)
Theorem C4_threshold_zero_or_unset (h : Host) (options : VitePluginCompression)
    (copts : gmap string OptionValue) (p : string) (st : State) (n : FileNode) :
  fs st !! p = Some n →
  (threshold options = Some 0 →
   ((handle h (resolveOptions options) copts p st).2 = emit (EvStat p) st
    ↔ node_mtimeMs n ≤ default 0 (mtimeCache st !! p)))
  ∧ (threshold options = None →
     r_threshold (resolveOptions options) = 1025
     ∧ ((handle h (resolveOptions options) copts p st).2 = emit (EvStat p) st
        ↔ node_mtimeMs n ≤ default 0 (mtimeCache st !! p)
          ∨ byteLength (node_data n) < 1025)).
Proof.
  intros Hp.
  pose proof (handle_skip_iff h (resolveOptions options) copts p st n Hp) as Hiff.
  split.
  - intros Ht. rewrite Hiff. unfold skip_condition. cbn. rewrite Ht. cbn.
    unfold byteLength. lia.
  - intros Ht. split; [cbn; by rewrite Ht|].
    rewrite Hiff. unfold skip_condition. cbn. rewrite Ht. cbn. done.
Qed.

Lemma C4_threshold_zero_or_unset_witness :
  ((handle (Fixtures.host 5000) (resolveOptions (Fixtures.with_threshold 0)) ∅
      "/dist/a.js"
      (Fixtures.disk [("/dist/a.js", Fixtures.file 1000 [])])).2
   = emit (EvStat "/dist/a.js")
       (Fixtures.disk [("/dist/a.js", Fixtures.file 1000 [])])
   ↔ node_mtimeMs (Fixtures.file 1000 [])
     ≤ default 0
         (mtimeCache (Fixtures.disk [("/dist/a.js", Fixtures.file 1000 [])])
            !! "/dist/a.js"))
  ∧ r_threshold (resolveOptions no_options) = 1025.
Proof.
  split.
  - apply (C4_threshold_zero_or_unset (Fixtures.host 5000)
             (Fixtures.with_threshold 0) ∅ "/dist/a.js"
             (Fixtures.disk [("/dist/a.js", Fixtures.file 1000 [])])
             (Fixtures.file 1000 [])).
    + reflexivity.
    + reflexivity.
  - apply (C4_threshold_zero_or_unset (Fixtures.host 5000) no_options ∅
             "/dist/a.js"
             (Fixtures.disk [("/dist/a.js", Fixtures.file 1000 [])])
             (Fixtures.file 1000 [])).
    + reflexivity.
    + reflexivity.
Defined.

(** ** The report *)

(** C5, as stated, fails: the report divides by the original size without a
    guard. With threshold 0 an empty file is compressed, its row has original
    size 0, and its percentage is Infinity, not 100. *)
Lemma C5_zero_size_counterexample :
  ∃ report row,
    In (EvReport report)
       (trace (closeBundle (Fixtures.host 5000)
                 (resolveOptions (Fixtures.with_threshold 0)) "/dist"
                 (Fixtures.disk [("/dist/empty.js", Fixtures.file 1000 [])])).2)
    ∧ In row (rows report)
    ∧ row_oldSize row = 0
    ∧ row_percentage row = PosInfinity
    ∧ ∀ q, row_percentage row ≠ Finite q.
Proof.
  eexists _, _. split; [|split; [|split; [|split]]].
  - vm_compute. right. right. right. right. right. left. reflexivity.
  - cbn. left. reflexivity.
  - reflexivity.
  - reflexivity.
  - intros q. discriminate.
Qed.

(** C5, amended. Every row of the report carries the sizes of its result;
    when the original size is not zero its percentage is the quotient
    100 × compressed size / original size; when the original size is zero the
    division is still performed and the percentage is Infinity for a
    non-empty output and NaN for an empty one. *)
Theorem C5_percentage (m : list (string * CompressEntry)) :
  Forall2
    (λ kv row,
       row_oldSize row = e_oldSize kv.2
       ∧ row_newSize row = e_size kv.2
       ∧ (e_oldSize kv.2 ≠ 0 →
          row_percentage row
          = Finite (Qdiv (inject_Z (100 * e_size kv.2)) (inject_Z (e_oldSize kv.2))))
       ∧ (e_oldSize kv.2 = 0 → 0 < e_size kv.2 → row_percentage row = PosInfinity)
       ∧ (e_oldSize kv.2 = 0 → e_size kv.2 = 0 → row_percentage row = NaN))
    m (rows (handleOutputLogger m)).
Proof.
  unfold handleOutputLogger. cbn. induction m as [|kv m IH]; cbn; constructor; [|done].
  unfold report_row, js_div. cbn. split; [done|]. split; [done|]. split; [|split].
  - intros Hz. by rewrite decide_False.
  - intros Hz Hs. rewrite decide_True by done.
    rewrite decide_False by lia. by rewrite decide_True by lia.
  - intros Hz Hs. rewrite decide_True by done. by rewrite decide_True by lia.
Qed.

Lemma C5_percentage_witness :
  row_percentage
    (report_row ("a.js", {| e_size := 400; e_oldSize := 1000; e_cname := "a.js.gz" |}))
  = Finite (Qdiv (inject_Z (100 * 400)) (inject_Z 1000)).
Proof.
  pose proof (C5_percentage
                [("a.js", {| e_size := 400; e_oldSize := 1000; e_cname := "a.js.gz" |})])
    as H.
  apply Forall2_cons_1 in H as [(_ & _ & H & _) _].
  apply H. cbn. discriminate.
Defined.

(** ** Codec failure *)

(** C1 on the code. The codec fails on /dist/a.js. The error is logged, but
    the task goes on after the [catch]: it enters the file in [compressMap]
    with the size it read as the new size, writes the bytes it read,
    uncompressed, to /dist/a.js.gz, records the file in [mtimeCache] and
    resolves. A later task of the file, with the mtime unchanged, returns
    after [fs.stat]: the compression is not tried again. *)
Theorem C1_codec_failure_falls_through :
  Fixtures.toy_zlib "gzip" (Byte.x00 :: Fixtures.bytes 1500) Failure.copts = None
  ∧ handle (Fixtures.host 5000) (resolveOptions no_options) Failure.copts
      "/dist/a.js" Failure.disk
    = (Resolved tt, Failure.after)
  ∧ trace Failure.after =
      [EvStat "/dist/a.js"; EvReadFile "/dist/a.js"; EvCompress "/dist/a.js" "gzip";
       EvLoggerError "compress error:/dist/a.js";
       EvWriteFile "/dist/a.js.gz" (Byte.x00 :: Fixtures.bytes 1500);
       EvCacheSet "/dist/a.js" 5000]
  ∧ fs Failure.after !! "/dist/a.js.gz"
    = Some (Fixtures.file 5000 (Byte.x00 :: Fixtures.bytes 1500))
  ∧ compressMap Failure.after
    = [("/dist/a.js",
        {| e_size := 1501; e_oldSize := 1501; e_cname := "/dist/a.js.gz" |})]
  ∧ mtimeCache Failure.after !! "/dist/a.js" = Some 5000
  ∧ handle (Fixtures.host 9000) (resolveOptions no_options) Failure.copts
      "/dist/a.js" Failure.after
    = (Resolved tt, emit (EvStat "/dist/a.js") Failure.after).
Proof.
  vm_compute. repeat split; reflexivity.
Qed.

(** ** All tasks of a run *)

Lemma handle_cases (h : Host) (o : ResolvedOptions)
    (copts : gmap string OptionValue) (p : string) (st : State) :
  (fs st !! p = None
   ∧ handle h o copts p st = (Rejected "ENOENT", emit (EvStat p) st))
  ∨ (∃ n, fs st !! p = Some n ∧ skip_condition o st p n
          ∧ handle h o copts p st = (Resolved tt, emit (EvStat p) st))
  ∨ (∃ n, fs st !! p = Some n ∧ ¬ skip_condition o st p n
          ∧ handle h o copts p st = (Resolved tt, process_state h o copts p n st)).
Proof.
  destruct (fs st !! p) as [n|] eqn:Hp.
  - right. destruct (decide (skip_condition o st p n)) as [Hc|Hc].
    + left. exists n. eauto using handle_skip.
    + right. exists n. eauto using handle_process.
  - left. eauto using handle_missing.
Qed.

Lemma process_events_task (h : Host) (o : ResolvedOptions)
    (copts : gmap string OptionValue) (p : string) (n : FileNode) :
  forallb is_task_event (process_events h o copts p n) = true.
Proof.
  unfold process_events.
  destruct (r_deleteOriginFile o), (zlib h (r_algorithm o) (node_data n) copts);
    reflexivity.
Qed.

Lemma handle_trace (h : Host) (o : ResolvedOptions)
    (copts : gmap string OptionValue) (p : string) (st : State) :
  ∃ evs : list Event,
    trace (handle h o copts p st).2 = (trace st ++ evs)%list
    ∧ forallb is_task_event evs = true.
Proof.
  destruct (handle_cases h o copts p st)
    as [[_ ->] | [(n & _ & _ & ->) | (n & _ & _ & ->)]]; cbn.
  - by exists [EvStat p].
  - by exists [EvStat p].
  - exists (process_events h o copts p n). split; [done|]. apply process_events_task.
Qed.

Lemma Promise_all_cons (t : Async unit) (rest : list (Async unit)) (st : State) :
  (Promise_all (t :: rest) st).2 = (Promise_all rest (t st).2).2.
Proof. cbn. destruct (t st) as [r st1]. cbn. by destruct (Promise_all rest st1). Qed.

Lemma Promise_all_trace (h : Host) (o : ResolvedOptions)
    (copts : gmap string OptionValue) (files : list string) (st : State) :
  ∃ evs : list Event,
    trace (Promise_all (map (handle h o copts) files) st).2 = (trace st ++ evs)%list
    ∧ forallb is_task_event evs = true.
Proof.
  revert st. induction files as [|p files IH]; intros st.
  - exists []. cbn. by rewrite app_nil_r.
  - cbn [map]. rewrite Promise_all_cons.
    destruct (handle_trace h o copts p st) as (e1 & H1 & F1).
    destruct (IH (handle h o copts p st).2) as (e2 & H2 & F2).
    exists (e1 ++ e2)%list. rewrite H2, H1, app_assoc. split; [done|].
    rewrite forallb_app, F1, F2. done.
Qed.

Lemma task_events_no_report (evs : list Event) :
  forallb is_task_event evs = true →
  (∀ r, ¬ In (EvReport r) evs) ∧ ¬ In EvSuccess evs.
Proof.
  intros H. rewrite forallb_forall in H.
  split; [intros r Hin | intros Hin]; apply H in Hin; discriminate Hin.
Qed.

(** C2, as stated, fails: the callback is called inside [if (verbose)].
    With verbose disabled the run below compresses its file and fills
    [compressMap]; it logs nothing and never calls [success]. *)
Lemma C2_callback_counterexample :
  r_verbose (resolveOptions (Fixtures.with_verbose false)) = false
  ∧ (closeBundle_lines Plain.console (Fixtures.host 5000)
       (resolveOptions (Fixtures.with_verbose false))
       "/dist" Fixtures.one_file).1.1 = Resolved tt
  ∧ map fst (compressMap
               (closeBundle_lines Plain.console (Fixtures.host 5000)
                  (resolveOptions (Fixtures.with_verbose false))
                  "/dist" Fixtures.one_file).1.2)
    = ["/dist/a.js"]
  ∧ ¬ In EvSuccess
        (trace (closeBundle_lines Plain.console (Fixtures.host 5000)
                  (resolveOptions (Fixtures.with_verbose false))
                  "/dist" Fixtures.one_file).1.2)
  ∧ (closeBundle_lines Plain.console (Fixtures.host 5000)
       (resolveOptions (Fixtures.with_verbose false))
       "/dist" Fixtures.one_file).2 = [].
Proof.
  vm_compute. repeat split; try reflexivity.
  intros H. repeat (destruct H as [H | H]; [discriminate H|]). exact H.
Qed.

(** C2, amended. With verbose disabled a run renders no report (nothing is
    logged through [config.logger.info]) and does not call the completion
    callback; the files are processed all the same: the file system, the
    cache and the per-file results are those of the run with verbose
    enabled. *)
Theorem C2_verbose_off_no_report_no_callback (c : Console) (h : Host)
    (o : ResolvedOptions) (outputPath : string) (st : State) :
  r_verbose o = false →
  (closeBundle_lines c h o outputPath st).2 = []
  ∧ ∃ evs : list Event,
      trace (closeBundle_lines c h o outputPath st).1.2 = (trace st ++ evs)%list
      ∧ (∀ r, ¬ In (EvReport r) evs)
      ∧ ¬ In EvSuccess evs
      ∧ fs (closeBundle_lines c h o outputPath st).1.2
        = fs (closeBundle_lines c h (set_verbose true o) outputPath st).1.2
      ∧ mtimeCache (closeBundle_lines c h o outputPath st).1.2
        = mtimeCache (closeBundle_lines c h (set_verbose true o) outputPath st).1.2
      ∧ compressMap (closeBundle_lines c h o outputPath st).1.2
        = compressMap (closeBundle_lines c h (set_verbose true o) outputPath st).1.2.
Proof.
  intros Hv. unfold closeBundle_lines. rewrite Hv. cbn.
  destruct (readAllFile h outputPath (fs st)) as [|f files] eqn:Hf.
  { split; [done|]. exists []. cbn. rewrite app_nil_r. auto 10. }
  change (handle h (set_verbose true o)) with (handle h o).
  set (copts := getCompressionOptions _ _).
  set (fl := filterFiles _ _).
  destruct (Promise_all_trace h o copts fl (set_compressMap [] st))
    as (evs & Ht & Hf').
  apply task_events_no_report in Hf' as [Hr Hs].
  destruct (Promise_all _ _) as [[[]|e] st']; cbn in *.
  - split; [done|]. exists evs.
    destruct (handleOutputLogger_lines c (compressMap st') (r_algorithm o) (r_ext o))
      as [ls [[]|e]]; cbn; auto 10.
  - split; [done|]. exists evs. auto 10.
Qed.

Lemma C2_verbose_off_no_report_no_callback_witness :
  (closeBundle_lines Plain.console (Fixtures.host 5000)
     (resolveOptions (Fixtures.with_verbose false)) "/dist" Fixtures.one_file).2
  = []
  ∧ ∃ evs : list Event,
      trace (closeBundle_lines Plain.console (Fixtures.host 5000)
               (resolveOptions (Fixtures.with_verbose false)) "/dist"
               Fixtures.one_file).1.2
      = (trace Fixtures.one_file ++ evs)%list
      ∧ (∀ r, ¬ In (EvReport r) evs)
      ∧ ¬ In EvSuccess evs
      ∧ fs (closeBundle_lines Plain.console (Fixtures.host 5000)
              (resolveOptions (Fixtures.with_verbose false)) "/dist"
              Fixtures.one_file).1.2
        = fs (closeBundle_lines Plain.console (Fixtures.host 5000)
                (set_verbose true (resolveOptions (Fixtures.with_verbose false)))
                "/dist" Fixtures.one_file).1.2
      ∧ mtimeCache (closeBundle_lines Plain.console (Fixtures.host 5000)
                      (resolveOptions (Fixtures.with_verbose false)) "/dist"
                      Fixtures.one_file).1.2
        = mtimeCache (closeBundle_lines Plain.console (Fixtures.host 5000)
                        (set_verbose true (resolveOptions (Fixtures.with_verbose false)))
                        "/dist" Fixtures.one_file).1.2
      ∧ compressMap (closeBundle_lines Plain.console (Fixtures.host 5000)
                       (resolveOptions (Fixtures.with_verbose false)) "/dist"
                       Fixtures.one_file).1.2
        = compressMap (closeBundle_lines Plain.console (Fixtures.host 5000)
                         (set_verbose true (resolveOptions (Fixtures.with_verbose false)))
                         "/dist" Fixtures.one_file).1.2.
Proof.
  apply (C2_verbose_off_no_report_no_callback Plain.console (Fixtures.host 5000)
           (resolveOptions (Fixtures.with_verbose false)) "/dist" Fixtures.one_file).
  reflexivity.
Defined.

(** ** Two runs in a row *)


Section two_runs.
Context (h1 : Host) (o : ResolvedOptions) (copts : gmap string OptionValue).
Context (F : list string) (fs0 : gmap string FileNode).

(** No selected file is the output path of a selected file. *)
Hypothesis outputs_apart :
  ∀ p q, In p F → In q F → getOutputFileName q (r_ext o) ≠ p.

(** The clock of the first run is not behind the mtime of a selected file. *)
Hypothesis clock_not_behind :
  ∀ p n, In p F → fs0 !! p = Some n → node_mtimeMs n ≤ Date_now h1 p.



End two_runs.



Lemma filterFiles_nil (f : Filter) : filterFiles [] f = [].
Proof. by destruct f as [| |[]]. Qed.




(** * Further properties *)

(** ** The default filter *)

Lemma endsWith_eq (s suffix : string) :
  endsWith s suffix =
  if String.eqb s suffix then true
  else match s with
       | EmptyString => false
       | String _ s' => endsWith s' suffix
       end.
Proof. by destruct s. Qed.

Lemma endsWith_spec (s suffix : string) :
  endsWith s suffix = true ↔ ∃ pre, s = pre +:+ suffix.
Proof.
  induction s as [|c s IH]; rewrite endsWith_eq.
  - destruct (String.eqb_spec "" suffix) as [<-|Hne].
    + split; [by exists ""|done].
    + split; [done|]. intros [pre Hp].
      destruct pre; cbn in Hp; [done|discriminate].
  - destruct (String.eqb_spec (String c s) suffix) as [<-|Hne].
    + split; [by exists ""|done].
    + rewrite IH. split.
      * intros [pre ->]. by exists (String c pre).
      * intros [pre Hp]. destruct pre as [|c' pre]; cbn in Hp; [done|].
        injection Hp as -> ->. by exists pre.
Qed.

Lemma append_cons (c : ascii) (s t : string) :
  String c s +:+ t = String c (s +:+ t).
Proof. reflexivity. Qed.

Lemma lower_app (s t : string) : lower (s +:+ t) = lower s +:+ lower t.
Proof.
  induction s as [|c s IH]; [done|].
  rewrite append_cons. simpl. by rewrite append_cons, IH.
Qed.

Lemma lower_length (s : string) : String.length (lower s) = String.length s.
Proof. induction s as [|c s IH]; simpl; [done|]. by f_equal. Qed.

Lemma extRE_spec (file : string) :
  extRE file = true ↔
  ∃ pre e, In e [".js"; ".mjs"; ".json"; ".css"; ".html"]
           ∧ lower file = pre +:+ e.
Proof.
  unfold extRE. rewrite existsb_exists. split.
  - intros (e & He & Hs). apply endsWith_spec in Hs as [pre Hp]. eauto.
  - intros (pre & e & He & Hp). exists e. split; [done|].
    apply endsWith_spec. eauto.
Qed.

Lemma last_char_app (s t : string) :
  t ≠ "" → last_char (s +:+ t) = last_char t.
Proof.
  intros Ht. induction s as [|c s IH]; [done|].
  rewrite append_cons. simpl. rewrite IH.
  destruct (s +:+ t) eqn:E; [|done].
  destruct s; [done | discriminate E].
Qed.

Lemma extRE_rejects (p e : string) (c : ascii) :
  last_char (lower e) = Some c →
  c ≠ "s"%char → c ≠ "n"%char → c ≠ "l"%char →
  extRE (p +:+ e) = false.
Proof.
  intros Hl H1 H2 H3.
  destruct (extRE (p +:+ e)) eqn:E; [|done]. exfalso.
  apply extRE_spec in E as (pre & x & Hx & Hp).
  rewrite lower_app in Hp.
  assert (lower e ≠ "") as Hne by (intros Hz; by rewrite Hz in Hl).
  apply (f_equal last_char) in Hp. rewrite last_char_app, Hl in Hp by done.
  cbn in Hx.
  destruct Hx as [<- | [<- | [<- | [<- | [<- | []]]]]];
    rewrite last_char_app in Hp by done; cbn in Hp; congruence.
Qed.

(** X2. The default filter accepts a path exactly when, letter case aside,
    the path ends in one of .js, .mjs, .json, .css, .html; in particular it
    accepts no path that ends in .gz or .br. *)
Theorem X2_extRE (file : string) :
  (extRE file = true ↔
   ∃ pre e, In e [".js"; ".mjs"; ".json"; ".css"; ".html"]
            ∧ lower file = pre +:+ e)
  ∧ extRE (file +:+ ".gz") = false
  ∧ extRE (file +:+ ".br") = false.
Proof.
  split; [apply extRE_spec|]. split.
  - by apply (extRE_rejects file ".gz" "z"%char).
  - by apply (extRE_rejects file ".br" "r"%char).
Qed.

Lemma X2_extRE_witness : extRE "/dist/assets/Index.JS" = true.
Proof.
  apply (proj1 (X2_extRE "/dist/assets/Index.JS")).
  exists "/dist/assets/index", ".js". split; [by left | reflexivity].
Defined.

(** X3. Under the default filter and the default extension (algorithm gzip
    or brotliCompress, no [ext] option) the output path of a file is never
    selected: a later run does not compress the compressed files again. *)
Theorem X3_default_outputs_not_selected (options : VitePluginCompression)
    (p : string) (files : list string) :
  filter options = None →
  ext options = None →
  (algorithm options = None ∨ algorithm options = Some "gzip"
   ∨ algorithm options = Some "brotliCompress") →
  ¬ In (getOutputFileName p (r_ext (resolveOptions options)))
      (filterFiles files (r_filter (resolveOptions options))).
Proof.
  intros Hf He Ha.
  assert (r_filter (resolveOptions options) = FilterRegExp extRE) as ->.
  { unfold resolveOptions, r_filter. by rewrite Hf. }
  change (r_ext (resolveOptions options)) with (resolveExt options).
  unfold filterFiles. rewrite filter_In. intros [_ Hx].
  assert (resolveExt options = ".gz" ∨ resolveExt options = ".br") as [Hr | Hr].
  { unfold resolveExt. rewrite He. destruct Ha as [-> | [-> | ->]]; cbn; auto. }
  - rewrite Hr in Hx.
    change (getOutputFileName p ".gz") with (p +:+ ".gz") in Hx.
    rewrite (extRE_rejects p ".gz" "z"%char) in Hx; done.
  - rewrite Hr in Hx.
    change (getOutputFileName p ".br") with (p +:+ ".br") in Hx.
    rewrite (extRE_rejects p ".br" "r"%char) in Hx; done.
Qed.

Lemma X3_default_outputs_not_selected_witness :
  ¬ In (getOutputFileName "/dist/a.js" (r_ext (resolveOptions no_options)))
      (filterFiles ["/dist/a.js"; "/dist/a.js.gz"]
         (r_filter (resolveOptions no_options))).
Proof.
  apply (X3_default_outputs_not_selected no_options "/dist/a.js"
           ["/dist/a.js"; "/dist/a.js.gz"]).
  - reflexivity.
  - reflexivity.
  - left. reflexivity.
Defined.

(** ** [getOutputFileName] and the extension *)

Lemma append_length (s t : string) :
  String.length (s +:+ t) = (String.length s + String.length t)%nat.
Proof.
  induction s as [|c s IH]; [done|]. rewrite append_cons. simpl. by rewrite IH.
Qed.

Lemma append_inj_l (e p q : string) : p +:+ e = q +:+ e → p = q.
Proof.
  revert q. induction p as [|c p IH]; intros [|d q] H.
  - done.
  - apply (f_equal String.length) in H. change ("" +:+ e) with e in H.
    rewrite append_cons in H. simpl in H. rewrite append_length in H. lia.
  - apply (f_equal String.length) in H. change ("" +:+ e) with e in H.
    rewrite append_cons in H. simpl in H. rewrite append_length in H. lia.
  - rewrite !append_cons in H. injection H as -> H. f_equal. by apply IH.
Qed.

(** X4. For a fixed extension, different source paths have different output
    paths, and the output path of a file is never the file itself. An
    extension written without its leading dot names the same output as the
    extension written with it. *)
Theorem X4_output_names (p q ext0 : string) :
  (getOutputFileName p ext0 = getOutputFileName q ext0 → p = q)
  ∧ getOutputFileName p ext0 ≠ p
  ∧ (String.length p < String.length (getOutputFileName p ext0))%nat
  ∧ (String.prefix "." ext0 = false →
     getOutputFileName p ext0 = getOutputFileName p ("." +:+ ext0)).
Proof.
  split; [|split; [|split]].
  - unfold getOutputFileName. apply append_inj_l.
  - apply getOutputFileName_ne.
  - unfold getOutputFileName. rewrite append_length.
    destruct (String.prefix "." ext0) eqn:E.
    + destruct ext0; [discriminate E | simpl; lia].
    + simpl. lia.
  - intros E. unfold getOutputFileName. by rewrite E, prefix_dot.
Qed.

Lemma X4_output_names_witness :
  getOutputFileName "/dist/a.js" "gz" = getOutputFileName "/dist/a.js" ("." +:+ "gz").
Proof.
  rewrite (proj2 (proj2 (proj2 (X4_output_names "/dist/a.js" "/dist/b.js" "gz")))).
  - reflexivity.
  - reflexivity.
Defined.

Lemma resolveExt_empty (options : VitePluginCompression) :
  resolveExt options = "" ↔
  default "" (ext options) = ""
  ∧ default "gzip" (algorithm options) ≠ "gzip"
  ∧ default "gzip" (algorithm options) ≠ "brotliCompress".
Proof.
  unfold resolveExt.
  destruct (decide (default "" (ext options) = "")) as [-> | He].
  - destruct (decide (default "gzip" (algorithm options) = "gzip")) as [-> | Hg].
    { cbn. split; [discriminate | tauto]. }
    rewrite (bool_decide_eq_false_2 _ Hg). cbn.
    destruct (decide (default "gzip" (algorithm options) = "brotliCompress"))
      as [-> | Hb]; cbn; [split; [discriminate | tauto]|].
    rewrite (bool_decide_eq_false_2 _ Hb). cbn. tauto.
  - rewrite (bool_decide_eq_false_2 _ He), andb_false_r.
    rewrite (bool_decide_eq_false_2 _ He), andb_false_r. tauto.
Qed.

(** X5. An explicit, non-empty [ext] option is used as it is, whatever the
    algorithm. The effective extension is empty exactly when [ext] is unset
    or empty and the algorithm is given and is neither gzip nor
    brotliCompress; an explicit empty [ext] counts as unset. *)
Theorem X5_resolveExt (options : VitePluginCompression) :
  (∀ e, ext options = Some e → e ≠ "" → resolveExt options = e)
  ∧ (resolveExt options = "" ↔
     (ext options = None ∨ ext options = Some "")
     ∧ algorithm options ≠ None
     ∧ algorithm options ≠ Some "gzip"
     ∧ algorithm options ≠ Some "brotliCompress").
Proof.
  split.
  - intros e He Hne. unfold resolveExt. rewrite He. cbn.
    rewrite (bool_decide_eq_false_2 (e = "")) by done.
    rewrite andb_false_r. rewrite (bool_decide_eq_false_2 (e = "")) by done.
    by rewrite andb_false_r.
  - rewrite resolveExt_empty.
    destruct (ext options) as [e|], (algorithm options) as [a|]; cbn.
    + split.
      * intros (-> & Hg & Hb). repeat split; [by right | done | congruence ..].
      * intros ([He | [= ->]] & _ & Hg & Hb); [done|].
        repeat split; congruence.
    + split; [intros (_ & Hg & _); done | intros (_ & Hn & _); done].
    + split.
      * intros (_ & Hg & Hb). repeat split; [by left | done | congruence ..].
      * intros (_ & _ & Hg & Hb). repeat split; congruence.
    + split; [intros (_ & Hg & _); done | intros (_ & Hn & _); done].
Qed.

Lemma X5_resolveExt_witness :
  resolveExt (Fixtures.with_algorithm_ext "deflate" (Some "zz")) = "zz".
Proof.
  apply (X5_resolveExt (Fixtures.with_algorithm_ext "deflate" (Some "zz"))).
  - reflexivity.
  - discriminate.
Defined.

(** ** Invariants of a run *)

Lemma Promise_all_inv (P : State → Prop) (h : Host) (o : ResolvedOptions)
    (copts : gmap string OptionValue) (l : list string) (st : State) :
  P st →
  (∀ q s, In q l → P s → P (handle h o copts q s).2) →
  P (Promise_all (map (handle h o copts) l) st).2.
Proof.
  revert st. induction l as [|q l IH]; intros st HP Hstep; [done|].
  cbn [map]. rewrite Promise_all_cons. apply IH.
  - apply Hstep; [by left | done].
  - intros q' s Hq'. apply Hstep. by right.
Qed.

Lemma closeBundle_inv (P : State → Prop) (h : Host) (o : ResolvedOptions)
    (root : string) (st : State) :
  (readAllFile h root (fs st) = [] → P st) →
  P (set_compressMap [] st) →
  (∀ q s, In q (selected h o root st) → P s →
          P (handle h o (getCompressionOptions (r_algorithm o)
                           (r_compressionOptions o)) q s).2) →
  (∀ e s, P s → P (emit e s)) →
  P (closeBundle h o root st).2.
Proof.
  intros Hnil Hst Hstep Hemit. unfold closeBundle, selected in *.
  destruct (readAllFile h root (fs st)) as [|f files] eqn:Hf; [by apply Hnil|].
  set (copts := getCompressionOptions _ _) in *.
  pose proof (Promise_all_inv P h o copts _ _ Hst Hstep) as HP.
  destruct (Promise_all _ _) as [[[]|e] st']; cbn in *; [|done].
  destruct (r_verbose o); cbn; auto.
Qed.

(** What one task does to the cache and to the disk. *)
Lemma handle_mtimeCache (h : Host) (o : ResolvedOptions)
    (copts : gmap string OptionValue) (q : string) (s : State) :
  mtimeCache (handle h o copts q s).2 = mtimeCache s
  ∨ mtimeCache (handle h o copts q s).2 = <[q := Date_now h q]> (mtimeCache s).
Proof.
  destruct (handle_cases h o copts q s)
    as [[_ ->] | [(n & _ & _ & ->) | (n & _ & _ & ->)]]; cbn; auto.
Qed.

Lemma handle_fs (h : Host) (o : ResolvedOptions)
    (copts : gmap string OptionValue) (q : string) (s : State) (x : string) :
  x ≠ getOutputFileName q (r_ext o) →
  fs (handle h o copts q s).2 !! x = fs s !! x
  ∨ (r_deleteOriginFile o = true ∧ x = q
     ∧ fs (handle h o copts q s).2 !! x = None).
Proof.
  intros Hx.
  destruct (handle_cases h o copts q s)
    as [[_ ->] | [(n & _ & _ & ->) | (n & _ & _ & ->)]]; cbn; auto.
  rewrite lookup_insert_ne by done.
  destruct (r_deleteOriginFile o); [|by left].
  destruct (decide (x = q)) as [-> | Hne].
  - right. by rewrite lookup_delete_eq.
  - left. by rewrite lookup_delete_ne.
Qed.

(** X6. A run changes [mtimeCache] only at the files it selected: the entry
    of any other path is left as it was. No entry is ever removed, and an
    entry that changed holds the clock value read for its file. *)
Theorem X6_cache_frame (h : Host) (o : ResolvedOptions) (root : string)
    (st : State) (x : string) :
  (¬ In x (selected h o root st) →
   mtimeCache (closeBundle h o root st).2 !! x = mtimeCache st !! x)
  ∧ (is_Some (mtimeCache st !! x) →
     is_Some (mtimeCache (closeBundle h o root st).2 !! x))
  ∧ (mtimeCache (closeBundle h o root st).2 !! x = mtimeCache st !! x
     ∨ mtimeCache (closeBundle h o root st).2 !! x = Some (Date_now h x)).
Proof.
  split; [|split].
  - intros Hx.
    apply (closeBundle_inv (λ s, mtimeCache s !! x = mtimeCache st !! x));
      [done | done | | done].
    intros q s Hq Hs.
    destruct (handle_mtimeCache h o
                (getCompressionOptions (r_algorithm o) (r_compressionOptions o))
                q s) as [-> | ->]; [done|].
    rewrite lookup_insert_ne; [done|]. intros ->. by apply Hx.
  - intros Hsome.
    apply (closeBundle_inv (λ s, is_Some (mtimeCache s !! x)));
      [done | done | | done].
    intros q s Hq Hs.
    destruct (handle_mtimeCache h o
                (getCompressionOptions (r_algorithm o) (r_compressionOptions o))
                q s) as [-> | ->]; [done|].
    destruct (decide (q = x)) as [-> | Hne].
    + rewrite lookup_insert_eq. eauto.
    + by rewrite lookup_insert_ne.
  - apply (closeBundle_inv
             (λ s, mtimeCache s !! x = mtimeCache st !! x
                   ∨ mtimeCache s !! x = Some (Date_now h x)));
      [by left | by left | | done].
    intros q s Hq Hs.
    destruct (handle_mtimeCache h o
                (getCompressionOptions (r_algorithm o) (r_compressionOptions o))
                q s) as [-> | ->]; [done|].
    destruct (decide (q = x)) as [-> | Hne].
    + right. by rewrite lookup_insert_eq.
    + by rewrite lookup_insert_ne.
Qed.

Lemma X6_cache_frame_witness :
  mtimeCache Fixtures.first_run !! "/dist/other.txt"
  = mtimeCache Fixtures.three_files !! "/dist/other.txt".
Proof.
  apply (X6_cache_frame (Fixtures.host 5000) (resolveOptions no_options) "/dist"
           Fixtures.three_files "/dist/other.txt").
  assert (selected (Fixtures.host 5000) (resolveOptions no_options) "/dist"
            Fixtures.three_files
          = ["/dist/c.js"; "/dist/a.js"; "/dist/b.js"]) as ->
    by (vm_compute; reflexivity).
  intros [H | [H | [H | []]]]; discriminate H.
Defined.

(** X7. A run writes only to output paths of selected files and removes only
    selected files, and those only when delete-original is configured: any
    other path of the disk is left exactly as it was. Without
    delete-original no file disappears. *)
Theorem X7_disk_frame (h : Host) (o : ResolvedOptions) (root : string)
    (st : State) (x : string) :
  ((∀ p, In p (selected h o root st) → x ≠ getOutputFileName p (r_ext o)) →
   (r_deleteOriginFile o = false ∨ ¬ In x (selected h o root st)) →
   fs (closeBundle h o root st).2 !! x = fs st !! x)
  ∧ (r_deleteOriginFile o = false → is_Some (fs st !! x) →
     is_Some (fs (closeBundle h o root st).2 !! x)).
Proof.
  split.
  - intros Hout Hdel.
    apply (closeBundle_inv (λ s, fs s !! x = fs st !! x));
      [done | done | | done].
    intros q s Hq Hs.
    destruct (handle_fs h o
                (getCompressionOptions (r_algorithm o) (r_compressionOptions o))
                q s x (Hout q Hq)) as [-> | (Hd & -> & _)]; [done|].
    destruct Hdel as [Hdel | Hdel]; [congruence | done].
  - intros Hdel Hsome.
    apply (closeBundle_inv (λ s, is_Some (fs s !! x))); [done | done | | done].
    intros q s Hq Hs.
    destruct (decide (x = getOutputFileName q (r_ext o))) as [-> | Hne].
    + destruct (handle_cases h o
                  (getCompressionOptions (r_algorithm o) (r_compressionOptions o))
                  q s) as [[_ ->] | [(n & _ & _ & ->) | (n & _ & _ & ->)]];
        cbn; [done | done |].
      rewrite lookup_insert_eq. eauto.
    + destruct (handle_fs h o
                  (getCompressionOptions (r_algorithm o) (r_compressionOptions o))
                  q s x Hne) as [-> | (Hd & _)]; [done | congruence].
Qed.

Lemma X7_disk_frame_witness :
  fs Fixtures.first_run !! "/dist/a.js" = fs Fixtures.three_files !! "/dist/a.js".
Proof.
  assert (selected (Fixtures.host 5000) (resolveOptions no_options) "/dist"
            Fixtures.three_files
          = ["/dist/c.js"; "/dist/a.js"; "/dist/b.js"]) as Hsel
    by (vm_compute; reflexivity).
  apply (X7_disk_frame (Fixtures.host 5000) (resolveOptions no_options) "/dist"
           Fixtures.three_files "/dist/a.js").
  - rewrite Hsel. intros p [<- | [<- | [<- | []]]]; vm_compute; discriminate.
  - left. reflexivity.
Defined.

(** ** The results of a run *)

Lemma jsmap_set_In {V} (k : string) (v : V) (m : list (string * V)) kv :
  In kv (jsmap_set k v m) → kv = (k, v) ∨ In kv m.
Proof.
  induction m as [|[k' v'] m IH]; simpl.
  - intros [<- | []]. by left.
  - destruct (decide (k = k')) as [-> | Hne]; simpl.
    + intros [<- | H]; auto.
    + intros [<- | H]; [auto|]. destruct (IH H); auto.
Qed.

Lemma jsmap_set_keys {V} (k : string) (v : V) (m : list (string * V)) :
  map fst (jsmap_set k v m) = map fst m
  ∨ (¬ In k (map fst m) ∧ map fst (jsmap_set k v m) = (map fst m ++ [k])%list).
Proof.
  induction m as [|[k' v'] m IH]; simpl.
  - right. split; [tauto | done].
  - destruct (decide (k = k')) as [-> | Hne]; simpl; [by left|].
    destruct IH as [-> | [Hn ->]]; [by left|].
    right. split; [|done]. intros [-> | H]; [done | by apply Hn].
Qed.

Lemma jsmap_set_NoDup {V} (k : string) (v : V) (m : list (string * V)) :
  NoDup (map fst m) → NoDup (map fst (jsmap_set k v m)).
Proof.
  intros Hnd. destruct (jsmap_set_keys k v m) as [-> | [Hn ->]]; [done|].
  apply NoDup_app. split; [done|]. split.
  - intros x Hx Hk. apply list_elem_of_In in Hx.
    apply list_elem_of_In in Hk as [<- | []]. by apply Hn.
  - apply NoDup_singleton.
Qed.

(** X8. After a run that discovered files, [compressMap] (and so the
    report) holds each processed file once; every entry belongs to a
    selected file, names the output path of that file, and has an original
    size that is at least the threshold. *)
Theorem X8_compressMap_entries (h : Host) (o : ResolvedOptions) (root : string)
    (st : State) :
  readAllFile h root (fs st) ≠ [] →
  NoDup (map fst (compressMap (closeBundle h o root st).2))
  ∧ ∀ k e, In (k, e) (compressMap (closeBundle h o root st).2) →
      In k (selected h o root st)
      ∧ e_cname e = getOutputFileName k (r_ext o)
      ∧ r_threshold o ≤ e_oldSize e
      ∧ 0 ≤ e_oldSize e
      ∧ 0 ≤ e_size e.
Proof.
  intros Hne.
  apply (closeBundle_inv
           (λ s, NoDup (map fst (compressMap s))
                 ∧ ∀ k e, In (k, e) (compressMap s) →
                     In k (selected h o root st)
                     ∧ e_cname e = getOutputFileName k (r_ext o)
                     ∧ r_threshold o ≤ e_oldSize e
                     ∧ 0 ≤ e_oldSize e
                     ∧ 0 ≤ e_size e)).
  - done.
  - cbn. split; [constructor | intros k e []].
  - intros q s Hq [Hnd Hall].
    destruct (handle_cases h o
                (getCompressionOptions (r_algorithm o) (r_compressionOptions o))
                q s) as [[_ ->] | [(n & _ & _ & ->) | (n & _ & Hc & ->)]];
      cbn; [done | done |].
    split; [by apply jsmap_set_NoDup|].
    intros k e Hin. apply jsmap_set_In in Hin as [[= -> ->] | Hin]; [|by apply Hall].
    cbn. unfold skip_condition in Hc. unfold byteLength in *.
    split; [done|]. split; [done|]. split; [lia|]. split; lia.
  - done.
Qed.

Lemma X8_compressMap_entries_witness :
  NoDup (map fst (compressMap Fixtures.first_run)).
Proof.
  unfold Fixtures.first_run.
  refine (proj1 (X8_compressMap_entries (Fixtures.host 5000)
                   (resolveOptions no_options) "/dist" Fixtures.three_files _)).
  vm_compute. discriminate.
Defined.

(** ** A file that cannot be read *)

Lemma Promise_all_outcome (t : Async unit) (rest : list (Async unit)) (st : State) :
  (Promise_all (t :: rest) st).1
  = match (t st).1 with
    | Rejected e => Rejected e
    | Resolved _ => (Promise_all rest (t st).2).1
    end.
Proof. cbn. destruct (t st) as [r st1]. cbn. by destruct (Promise_all rest st1). Qed.

Lemma handle_outcome (h : Host) (o : ResolvedOptions)
    (copts : gmap string OptionValue) (q : string) (s : State) :
  (handle h o copts q s).1 = Resolved tt
  ∨ (handle h o copts q s).1 = Rejected "ENOENT".
Proof.
  destruct (handle_cases h o copts q s)
    as [[_ ->] | [(n & _ & _ & ->) | (n & _ & _ & ->)]]; cbn; auto.
Qed.

Lemma handle_stat_first (h : Host) (o : ResolvedOptions)
    (copts : gmap string OptionValue) (q : string) (s : State) :
  ∃ evs : list Event,
    trace (handle h o copts q s).2 = (trace s ++ EvStat q :: evs)%list
    ∧ forallb is_task_event evs = true.
Proof.
  destruct (handle_cases h o copts q s)
    as [[_ ->] | [(n & _ & _ & ->) | (n & _ & _ & ->)]]; cbn.
  - by exists [].
  - by exists [].
  - unfold process_events. cbn. eexists. split; [reflexivity|].
    destruct (r_deleteOriginFile o),
      (zlib h (r_algorithm o) (node_data n) copts); reflexivity.
Qed.

Lemma Promise_all_missing (h : Host) (o : ResolvedOptions)
    (copts : gmap string OptionValue) (p : string) (l : list string) (st : State) :
  (∀ q, In q l → getOutputFileName q (r_ext o) ≠ p) →
  fs st !! p = None →
  In p l →
  (Promise_all (map (handle h o copts) l) st).1 = Rejected "ENOENT".
Proof.
  revert st. induction l as [|q l IH]; intros st Hout Hp Hin; [done|].
  cbn [map]. rewrite Promise_all_outcome.
  destruct (decide (q = p)) as [-> | Hne].
  { by rewrite handle_missing. }
  destruct (handle_outcome h o copts q st) as [-> | ->]; [|done].
  apply IH.
  - intros q' Hq'. apply Hout. by right.
  - destruct (handle_fs h o copts q st p) as [-> | (_ & _ & ->)]; [|done..].
    intros ->. by apply (Hout q); [left|].
  - destruct Hin as [-> | Hin]; done.
Qed.

Lemma Promise_all_stats (h : Host) (o : ResolvedOptions)
    (copts : gmap string OptionValue) (l : list string) (st : State) :
  ∃ evs : list Event,
    trace (Promise_all (map (handle h o copts) l) st).2 = (trace st ++ evs)%list
    ∧ forallb is_task_event evs = true
    ∧ ∀ q, In q l → In (EvStat q) evs.
Proof.
  revert st. induction l as [|q l IH]; intros st.
  - exists []. cbn. rewrite app_nil_r. split; [done|]. split; [done|]. intros q [].
  - cbn [map]. rewrite Promise_all_cons.
    destruct (handle_stat_first h o copts q st) as (e1 & H1 & F1).
    destruct (IH (handle h o copts q st).2) as (e2 & H2 & F2 & S2).
    exists (EvStat q :: e1 ++ e2)%list.
    rewrite H2, H1, <- app_assoc. split; [done|]. split.
    + cbn. by rewrite forallb_app, F1, F2.
    + intros q' [<- | Hq']; [by left|]. right. apply in_app_iff. right. by apply S2.
Qed.

(** X9. When a selected path is not on disk (and is not the output path of
    a selected file), its [fs.stat] fails and the whole hook rejects with
    that error: no report is rendered and the callback is not called. The
    tasks of the other files have run all the same: every selected path was
    stat'ed. *)
Theorem X9_missing_file_rejects (h : Host) (o : ResolvedOptions) (root : string)
    (st : State) (p : string) :
  In p (selected h o root st) →
  fs st !! p = None →
  (∀ q, In q (selected h o root st) → getOutputFileName q (r_ext o) ≠ p) →
  (closeBundle h o root st).1 = Rejected "ENOENT"
  ∧ ∃ evs : list Event,
      trace (closeBundle h o root st).2 = (trace st ++ evs)%list
      ∧ (∀ r, ¬ In (EvReport r) evs)
      ∧ ¬ In EvSuccess evs
      ∧ ∀ q, In q (selected h o root st) → In (EvStat q) evs.
Proof.
  unfold selected, closeBundle. intros Hin Hp Hout.
  destruct (readAllFile h root (fs st)) as [|f files] eqn:Hf.
  { by rewrite filterFiles_nil in Hin. }
  set (copts := getCompressionOptions _ _).
  set (F := filterFiles _ _) in *.
  pose proof (Promise_all_missing h o copts p F (set_compressMap [] st) Hout Hp Hin)
    as Hrej.
  destruct (Promise_all_stats h o copts F (set_compressMap [] st))
    as (evs & Ht & Hf' & Hs).
  apply task_events_no_report in Hf' as [Hr Hsuc].
  destruct (Promise_all _ _) as [[[]|e] st']; cbn in *; [discriminate Hrej|].
  split; [done|]. exists evs. auto.
Qed.

Lemma X9_missing_file_rejects_witness :
  (closeBundle
     {| zlib := Fixtures.toy_zlib; Date_now := λ _, 5000; fs_clock := λ _, 5000;
        readAllFile := λ _ _, ["/dist/a.js"; "/dist/gone.js"] |}
     (resolveOptions no_options) "/dist" Fixtures.one_file).1
  = Rejected "ENOENT".
Proof.
  apply (X9_missing_file_rejects
           {| zlib := Fixtures.toy_zlib; Date_now := λ _, 5000;
              fs_clock := λ _, 5000;
              readAllFile := λ _ _, ["/dist/a.js"; "/dist/gone.js"] |}
           (resolveOptions no_options) "/dist" Fixtures.one_file "/dist/gone.js").
  - vm_compute. right. left. reflexivity.
  - vm_compute. reflexivity.
  - assert (selected
              {| zlib := Fixtures.toy_zlib; Date_now := λ _, 5000;
                 fs_clock := λ _, 5000;
                 readAllFile := λ _ _, ["/dist/a.js"; "/dist/gone.js"] |}
              (resolveOptions no_options) "/dist" Fixtures.one_file
            = ["/dist/a.js"; "/dist/gone.js"]) as -> by (vm_compute; reflexivity).
    intros q [<- | [<- | []]]; vm_compute; discriminate.
Defined.

(** ** What a run achieves for a file *)

Lemma jsmap_set_In_new {V} (k : string) (v : V) (m : list (string * V)) :
  In (k, v) (jsmap_set k v m).
Proof.
  induction m as [|[k' v'] m IH]; simpl; [by left|].
  destruct (decide (k = k')); simpl; auto.
Qed.


Section one_file.
Context (h : Host) (o : ResolvedOptions) (copts : gmap string OptionValue).
Context (F : list string) (st0 : State) (p : string) (n : FileNode).
Hypothesis apart : ∀ a b, In a F → In b F → getOutputFileName b (r_ext o) ≠ a.
Hypothesis p_selected : In p F.
Hypothesis p_fresh : ¬ skip_condition o st0 p n.






End one_file.


(** ** The totals of the report *)

Lemma sum_map_foldl (f : CompressEntry → Z) (m : list (string * CompressEntry))
    (z : Z) :
  foldl (λ acc kv, acc + f kv.2) z m = z + sum_map f m.
Proof.
  unfold sum_map. revert z. induction m as [|kv m IH]; intros z; simpl; [lia|].
  rewrite (IH (z + f kv.2)), (IH (0 + f kv.2)). lia.
Qed.

Lemma sum_map_cons (f : CompressEntry → Z) kv (m : list (string * CompressEntry)) :
  sum_map f (kv :: m) = f kv.2 + sum_map f m.
Proof. unfold sum_map at 1. simpl. rewrite sum_map_foldl. lia. Qed.

(** X11. The totals of the report are the sums of the sizes of its rows,
    and the total percentage is computed from these sums. Hence a bound that
    holds for the ratio of every row holds for the ratio of the totals: if
    every file has b × compressed ≤ a × original, so have the totals. *)
Theorem X11_totals (m : list (string * CompressEntry)) :
  totalOldSize (handleOutputLogger m)
  = foldr Z.add 0 (map row_oldSize (rows (handleOutputLogger m)))
  ∧ totalNewSize (handleOutputLogger m)
    = foldr Z.add 0 (map row_newSize (rows (handleOutputLogger m)))
  ∧ totalPercentage (handleOutputLogger m)
    = js_div (100 * totalNewSize (handleOutputLogger m))
        (totalOldSize (handleOutputLogger m))
  ∧ ∀ a b : Z,
      (∀ kv, In kv m → b * e_size kv.2 ≤ a * e_oldSize kv.2) →
      b * totalNewSize (handleOutputLogger m)
      ≤ a * totalOldSize (handleOutputLogger m).
Proof.
  unfold handleOutputLogger. cbn [totalOldSize totalNewSize totalPercentage rows].
  split; [|split; [|split]].
  - induction m as [|kv m IH]; [done|].
    rewrite sum_map_cons. cbn [map foldr]. rewrite <- IH. reflexivity.
  - induction m as [|kv m IH]; [done|].
    rewrite sum_map_cons. cbn [map foldr]. rewrite <- IH. reflexivity.
  - reflexivity.
  - intros a b. induction m as [|kv m IH]; intros Hall.
    + cbn. lia.
    + rewrite !sum_map_cons.
      assert (b * e_size kv.2 ≤ a * e_oldSize kv.2) by (apply Hall; by left).
      assert (b * sum_map e_size m ≤ a * sum_map e_oldSize m).
      { apply IH. intros kv' Hkv'. apply Hall. by right. }
      lia.
Qed.

Lemma X11_totals_witness :
  5 * totalNewSize
        (handleOutputLogger
           [("a", {| e_size := 400; e_oldSize := 1000; e_cname := "a.gz" |});
            ("b", {| e_size := 200; e_oldSize := 2000; e_cname := "b.gz" |})])
  ≤ 2 * totalOldSize
          (handleOutputLogger
             [("a", {| e_size := 400; e_oldSize := 1000; e_cname := "a.gz" |});
              ("b", {| e_size := 200; e_oldSize := 2000; e_cname := "b.gz" |})]).
Proof.
  apply (X11_totals
           [("a", {| e_size := 400; e_oldSize := 1000; e_cname := "a.gz" |});
            ("b", {| e_size := 200; e_oldSize := 2000; e_cname := "b.gz" |})]).
  intros kv [<- | [<- | []]]; cbn; lia.
Defined.

(** ** The lines of the report *)

Lemma String_repeat_is_Some (s : string) (count : Z) :
  is_Some (String_repeat s count) ↔ 0 ≤ count.
Proof.
  unfold String_repeat. destruct (Z.ltb_spec count 0).
  - split; [intros [x Hx]; discriminate Hx | lia].
  - split; [done | eauto].
Qed.

Lemma row_line_is_Some (c : Console) (algorithm ext : string) (ml : MaxLengths)
    (tO tN tP : string) (it : Item) :
  is_Some (row_line c algorithm ext ml tO tN tP it) ↔
  0 ≤ 2 + ml_filename ml - str_length (filename it)
  ∧ str_length (oldSize it) ≤ str_length tO
  ∧ str_length (newSize it) ≤ str_length tN
  ∧ str_length (percentage it) ≤ str_length tP.
Proof.
  unfold row_line.
  pose proof (String_repeat_is_Some " "
                (2 + ml_filename ml - str_length (filename it))) as H1.
  pose proof (String_repeat_is_Some " " (str_length tO - str_length (oldSize it)))
    as H2.
  pose proof (String_repeat_is_Some " " (str_length tN - str_length (newSize it)))
    as H3.
  pose proof (String_repeat_is_Some " "
                (str_length tP - str_length (percentage it))) as H4.
  destruct (String_repeat " " (2 + ml_filename ml - str_length (filename it)));
    destruct (String_repeat " " (str_length tO - str_length (oldSize it)));
    destruct (String_repeat " " (str_length tN - str_length (newSize it)));
    destruct (String_repeat " " (str_length tP - str_length (percentage it)));
    cbn; rewrite ?is_Some_alt in *; cbn in *;
    split; try tauto; try (intros _; repeat split; lia);
    intros (? & ? & ? & ?); try (apply H1; lia); try (apply H2; lia);
    try (apply H3; lia); try (apply H4; lia).
Qed.

Lemma total_line_is_Some (c : Console) (algorithm : string) (ml : MaxLengths)
    (tO tN tP : string) :
  is_Some (total_line c algorithm ml tO tN tP) ↔ 3 ≤ ml_filename ml.
Proof.
  unfold total_line.
  pose proof (String_repeat_is_Some " " (2 + ml_filename ml - 5)) as H1.
  pose proof (String_repeat_is_Some " " (str_length algorithm + 2)) as H2.
  assert (0 ≤ str_length algorithm + 2) as Hlen by (unfold str_length; lia).
  destruct (String_repeat " " (2 + ml_filename ml - 5));
    destruct (String_repeat " " (str_length algorithm + 2));
    cbn; rewrite ?is_Some_alt in *; cbn in *.
  - split; [intros _; lia | done].
  - exfalso. by apply H2.
  - split; [done | intros ?; apply H1; lia].
  - exfalso. by apply H2.
Qed.

Lemma log_rows_Resolved (line : Item → option string) (items : list Item) :
  ((log_rows line items).2 = Resolved tt ↔ ∀ it, In it items → is_Some (line it))
  ∧ ((log_rows line items).2 = Resolved tt
     ∨ (log_rows line items).2 = Rejected "RangeError")
  ∧ ((log_rows line items).2 = Resolved tt →
     length (log_rows line items).1 = length items).
Proof.
  induction items as [|it items (IH1 & IH2 & IH3)]; simpl.
  - split; [|auto]. split; [intros _ it [] | done].
  - destruct (line it) as [l|] eqn:El.
    + destruct (log_rows line items) as [ls r]. cbn in *.
      split; [|split; [done|]].
      * rewrite IH1. split.
        -- intros H it' [<- | Hin]; [rewrite El; eauto | by apply H].
        -- intros H it' Hin. apply H. by right.
      * intros Hr. by rewrite IH3.
    + cbn. split; [|split; [by right | done]].
      split; [done|]. intros H.
      destruct (H it (or_introl eq_refl)) as [x Hx]. congruence.
Qed.

Lemma foldl_maxLengths (acc : MaxLengths) (items : list Item) :
  ml_filename (foldl update_maxLengths acc items)
  = foldl Z.max (ml_filename acc) (map (λ it, str_length (filename it)) items).
Proof.
  revert acc. induction items as [|it items IH]; intros acc; simpl; [done|].
  by rewrite IH.
Qed.

Lemma foldl_max_spec (a : Z) (l : list Z) :
  a ≤ foldl Z.max a l
  ∧ (∀ x, In x l → x ≤ foldl Z.max a l)
  ∧ (foldl Z.max a l = a ∨ In (foldl Z.max a l) l).
Proof.
  revert a. induction l as [|x l IH]; intros a; simpl.
  - split; [lia|]. split; [intros x [] | by left].
  - destruct (IH (Z.max a x)) as (H1 & H2 & H3).
    split; [lia|]. split.
    + intros y [<- | Hy]; [lia | by apply H2].
    + destruct H3 as [-> | H3]; [|by right; right].
      destruct (Z.max_spec a x) as [[_ ->] | [_ ->]]; [right; by left | by left].
Qed.

Lemma maxLengths_filename (items : list Item) :
  (∀ it, In it items →
         str_length (filename it) ≤ ml_filename (maxLengths_of items))
  ∧ (3 ≤ ml_filename (maxLengths_of items) ↔
     ∃ it, In it items ∧ 3 ≤ str_length (filename it)).
Proof.
  unfold maxLengths_of. rewrite foldl_maxLengths. cbn [ml_filename].
  destruct (foldl_max_spec 0 (map (λ it, str_length (filename it)) items))
    as (H1 & H2 & H3).
  split.
  - intros it Hin. apply H2. apply in_map_iff. eauto.
  - split.
    + intros Hge. destruct H3 as [H3 | H3]; [lia|].
      apply in_map_iff in H3 as (it & Heq & Hin). exists it. split; [done | lia].
    + intros (it & Hin & Hlen).
      assert (str_length (filename it)
              ≤ foldl Z.max 0 (map (λ it, str_length (filename it)) items)).
      { apply H2. apply in_map_iff. eauto. }
      lia.
Qed.

(** X12. [handleOutputLogger] returns, having logged a blank line, the
    header, one line per file, the Total line and a blank line, exactly when
    some file name of the report has at least 3 characters and no row has a
    size text or percentage text longer than the corresponding text of the
    totals. Otherwise a padding count is negative and the function throws a
    [RangeError]; the blank line and the header have been logged by then. *)
Theorem X12_report_lines (c : Console) (m : list (string * CompressEntry))
    (algorithm ext0 : string) :
  ((handleOutputLogger_lines c m algorithm ext0).2 = Resolved tt ↔
   (∃ kv, In kv m ∧ 3 ≤ str_length (relative_name c (e_cname kv.2)))
   ∧ ∀ kv, In kv m →
       str_length (size_string c (e_oldSize kv.2))
       ≤ str_length (size_string c (sum_map e_oldSize m))
       ∧ str_length (size_string c (e_size kv.2))
         ≤ str_length (size_string c (sum_map e_size m))
       ∧ str_length (percentage_string c (e_size kv.2) (e_oldSize kv.2))
         ≤ str_length
             (percentage_string c (sum_map e_size m) (sum_map e_oldSize m)))
  ∧ ((handleOutputLogger_lines c m algorithm ext0).2 = Resolved tt
     ∨ (handleOutputLogger_lines c m algorithm ext0).2 = Rejected "RangeError")
  ∧ ((handleOutputLogger_lines c m algorithm ext0).2 = Resolved tt →
     length (handleOutputLogger_lines c m algorithm ext0).1 = (length m + 4)%nat)
  ∧ ∃ rest,
      (handleOutputLogger_lines c m algorithm ext0).1
      = newline
        :: (chalk_cyan c ("✨ [vite-plugin-compression]:algorithm=" +:+ algorithm)
            +:+ " - compressed file successfully: ")
        :: rest.
Proof.
  unfold handleOutputLogger_lines.
  set (items := map (newItem c) m).
  set (ml := maxLengths_of items).
  set (tO := size_string c (sum_map e_oldSize m)).
  set (tN := size_string c (sum_map e_size m)).
  set (tP := percentage_string c (sum_map e_size m) (sum_map e_oldSize m)).
  destruct (log_rows_Resolved (row_line c algorithm ext0 ml tO tN tP) items)
    as (Hrows & Hor & Hlen).
  pose proof (total_line_is_Some c algorithm ml tO tN tP) as Htot.
  pose proof (maxLengths_filename items) as [Hmax Hthree]. fold ml in Hmax, Hthree.
  assert ((∀ it, In it items →
             is_Some (row_line c algorithm ext0 ml tO tN tP it)) ↔
          ∀ kv, In kv m →
            str_length (size_string c (e_oldSize kv.2)) ≤ str_length tO
            ∧ str_length (size_string c (e_size kv.2)) ≤ str_length tN
            ∧ str_length (percentage_string c (e_size kv.2) (e_oldSize kv.2))
              ≤ str_length tP) as Hrow_iff.
  { split.
    - intros H kv Hkv.
      assert (In (newItem c kv) items) as Hit by (apply in_map_iff; eauto).
      apply H, row_line_is_Some in Hit. cbn in Hit. tauto.
    - intros H it Hit. apply row_line_is_Some.
      split; [pose proof (Hmax it Hit); lia|].
      apply in_map_iff in Hit as (kv & <- & Hkv). cbn. by apply H. }
  assert (3 ≤ ml_filename ml ↔
          ∃ kv, In kv m ∧ 3 ≤ str_length (relative_name c (e_cname kv.2)))
    as Hthree'.
  { rewrite Hthree. split.
    - intros (it & Hit & Hl). apply in_map_iff in Hit as (kv & <- & Hkv). eauto.
    - intros (kv & Hkv & Hl). exists (newItem c kv). split; [|done].
      apply in_map_iff. eauto. }
  destruct (log_rows (row_line c algorithm ext0 ml tO tN tP) items)
    as [ls r] eqn:Elog. cbn in Hrows, Hor, Hlen.
  destruct r as [[]|e].
  - destruct (total_line c algorithm ml tO tN tP) as [t|] eqn:Etot; cbn.
    + split; [|split; [by left|split]].
      * split; [intros _|done]. split.
        -- apply (proj1 Hthree'), (proj1 Htot). eauto.
        -- by apply (proj1 Hrow_iff), (proj1 Hrows).
      * intros _. rewrite length_app. cbn. rewrite Hlen by done.
        unfold items. rewrite length_map. lia.
      * eauto.
    + split; [|split; [by right|split; [done|eauto]]].
      split; [done|]. intros [H3 _].
      apply (proj2 Hthree') in H3. apply (proj2 Htot) in H3 as [x Hx].
      discriminate Hx.
  - cbn. destruct Hor as [Hor | Hor]; [discriminate Hor|]. injection Hor as ->.
    split; [|split; [by right|split; [done|eauto]]].
    split; [done|]. intros [_ Hall].
    pose proof (proj2 Hrows (proj2 Hrow_iff Hall)) as Hd. discriminate Hd.
Qed.

Lemma X12_report_lines_witness :
  length
    (handleOutputLogger_lines Plain.console
       [("/dist/a.js",
         {| e_size := 700; e_oldSize := 2000; e_cname := "/dist/a.js.gz" |})]
       "gzip" ".gz").1
  = (1 + 4)%nat.
Proof.
  apply (X12_report_lines Plain.console
           [("/dist/a.js",
             {| e_size := 700; e_oldSize := 2000; e_cname := "/dist/a.js.gz" |})]
           "gzip" ".gz").
  vm_compute. reflexivity.
Defined.

(** ** The hook with the lines of the report *)


Lemma handleOutputLogger_lines_nil (c : Console) (algorithm ext0 : string) :
  handleOutputLogger_lines c [] algorithm ext0
  = ([newline;
      chalk_cyan c ("✨ [vite-plugin-compression]:algorithm=" +:+ algorithm)
      +:+ " - compressed file successfully: "],
     Rejected "RangeError").
Proof. reflexivity. Qed.

Lemma Promise_all_skipped (h : Host) (o : ResolvedOptions)
    (copts : gmap string OptionValue) (l : list string) (st : State) :
  (∀ p, In p l → ∃ n, fs st !! p = Some n ∧ skip_condition o st p n) →
  (Promise_all (map (handle h o copts) l) st).1 = Resolved tt
  ∧ trace (Promise_all (map (handle h o copts) l) st).2
    = (trace st ++ map EvStat l)%list
  ∧ fs (Promise_all (map (handle h o copts) l) st).2 = fs st
  ∧ mtimeCache (Promise_all (map (handle h o copts) l) st).2 = mtimeCache st
  ∧ compressMap (Promise_all (map (handle h o copts) l) st).2 = compressMap st.
Proof.
  revert st. induction l as [|p l IH]; intros st Hs.
  - cbn. by rewrite app_nil_r.
  - cbn [map]. rewrite Promise_all_outcome, Promise_all_cons.
    destruct (Hs p (or_introl eq_refl)) as (n & Hn & Hc).
    rewrite (handle_skip h o copts p st n Hn Hc). cbn [fst snd].
    destruct (IH (emit (EvStat p) st)) as (H1 & H2 & H3 & H4 & H5).
    { intros q Hq. destruct (Hs q (or_intror Hq)) as (n' & Hn' & Hc').
      exists n'. split; [done|]. exact Hc'. }
    rewrite H1, H2, H3, H4, H5. cbn. by rewrite <- app_assoc.
Qed.

(** X13. When the hook discovers files and verbose is on, but every
    selected file is skipped (or the filter selects none), nothing is in
    [compressMap] and the Total line of the report asks for a padding of
    2 + 0 - 5 blanks: the hook rejects with a [RangeError] after logging the
    blank line and the header, and the callback is not called. The disk and
    the cache are left as they were. *)
Theorem X13_nothing_compressed (c : Console) (h : Host) (o : ResolvedOptions)
    (root : string) (st : State) :
  readAllFile h root (fs st) ≠ [] →
  r_verbose o = true →
  (∀ p, In p (selected h o root st) →
        ∃ n, fs st !! p = Some n ∧ skip_condition o st p n) →
  (closeBundle_lines c h o root st).1.1 = Rejected "RangeError"
  ∧ (closeBundle_lines c h o root st).2
    = [newline;
       chalk_cyan c ("✨ [vite-plugin-compression]:algorithm=" +:+ r_algorithm o)
       +:+ " - compressed file successfully: "]
  ∧ trace (closeBundle_lines c h o root st).1.2
    = (trace st ++ map EvStat (selected h o root st))%list
  ∧ fs (closeBundle_lines c h o root st).1.2 = fs st
  ∧ mtimeCache (closeBundle_lines c h o root st).1.2 = mtimeCache st.
Proof.
  unfold closeBundle_lines, selected. intros Hne Hv Hskip.
  destruct (readAllFile h root (fs st)) as [|f files] eqn:Hf; [done|].
  set (copts := getCompressionOptions _ _).
  set (F := filterFiles _ _) in *.
  destruct (Promise_all_skipped h o copts F (set_compressMap [] st))
    as (H1 & H2 & H3 & H4 & H5); [exact Hskip|].
  destruct (Promise_all _ _) as [r st']. cbn in H1, H2, H3, H4, H5.
  subst r. rewrite Hv, H5. cbn [compressMap set_compressMap].
  rewrite handleOutputLogger_lines_nil. cbn. auto.
Qed.

Lemma X13_nothing_compressed_witness :
  (closeBundle_lines Plain.console (Fixtures.host 9000)
     (resolveOptions no_options) "/dist" Fixtures.first_run).1.1
  = Rejected "RangeError".
Proof.
  assert (selected (Fixtures.host 9000) (resolveOptions no_options) "/dist"
            Fixtures.first_run
          = ["/dist/c.js"; "/dist/a.js"; "/dist/b.js"]) as Hsel
    by (vm_compute; reflexivity).
  refine (proj1 (X13_nothing_compressed Plain.console (Fixtures.host 9000)
                   (resolveOptions no_options) "/dist" Fixtures.first_run
                   _ _ _)).
  - vm_compute. discriminate.
  - reflexivity.
  - rewrite Hsel. intros p [<- | [<- | [<- | []]]].
    + exists (Fixtures.file 1000 (Fixtures.bytes 1600)).
      split; [vm_compute; reflexivity|]. left. vm_compute. discriminate.
    + exists (Fixtures.file 1000 (Byte.x00 :: Fixtures.bytes 1500)).
      split; [vm_compute; reflexivity|]. left. vm_compute. discriminate.
    + exists (Fixtures.file 1000 (Fixtures.bytes 1500)).
      split; [vm_compute; reflexivity|]. left. vm_compute. discriminate.
Defined.



(** ** Codec failure, in general *)

(** X15. A task that gets past the early return logs the line
    "compress error:" followed by the path exactly when the codec failed for
    the file. In that case the bytes it writes to the output path are the
    bytes it read, and the entry of the file in [compressMap] has equal
    sizes; otherwise it writes the codec's result and logs no error. *)
Theorem X15_codec_failure (h : Host) (o : ResolvedOptions)
    (copts : gmap string OptionValue) (p : string) (st : State) (n : FileNode) :
  fs st !! p = Some n →
  ¬ skip_condition o st p n →
  (zlib h (r_algorithm o) (node_data n) copts = None →
   In (EvLoggerError ("compress error:" +:+ p))
      (new_events st (handle h o copts p st).2)
   ∧ fs (handle h o copts p st).2 !! getOutputFileName p (r_ext o)
     = Some {| node_mtimeMs := fs_clock h (getOutputFileName p (r_ext o));
               node_data := node_data n |}
   ∧ In (p, {| e_size := byteLength (node_data n);
               e_oldSize := byteLength (node_data n);
               e_cname := getOutputFileName p (r_ext o) |})
        (compressMap (handle h o copts p st).2))
  ∧ (∀ result, zlib h (r_algorithm o) (node_data n) copts = Some result →
     (∀ msg, ¬ In (EvLoggerError msg) (new_events st (handle h o copts p st).2))
     ∧ fs (handle h o copts p st).2 !! getOutputFileName p (r_ext o)
       = Some {| node_mtimeMs := fs_clock h (getOutputFileName p (r_ext o));
                 node_data := result |}
     ∧ In (p, {| e_size := byteLength result;
                 e_oldSize := byteLength (node_data n);
                 e_cname := getOutputFileName p (r_ext o) |})
          (compressMap (handle h o copts p st).2)).
Proof.
  intros Hp Hc. rewrite (handle_process h o copts p st n Hp Hc).
  unfold new_events, process_state, process_events, result_content.
  cbn [snd fs compressMap trace]. rewrite drop_app_length.
  split.
  - intros Hz. rewrite Hz. split; [|split].
    + destruct (r_deleteOriginFile o); cbn; auto 10.
    + by rewrite lookup_insert_eq.
    + apply jsmap_set_In_new.
  - intros result Hz. rewrite Hz. split; [|split].
    + intros msg Hin. destruct (r_deleteOriginFile o); cbn in Hin;
        repeat (destruct Hin as [Hin | Hin]; [discriminate Hin|]); exact Hin.
    + by rewrite lookup_insert_eq.
    + apply jsmap_set_In_new.
Qed.

Lemma X15_codec_failure_witness :
  fs (handle (Fixtures.host 5000) (resolveOptions no_options) ∅ "/dist/a.js"
        (Fixtures.disk
           [("/dist/a.js", Fixtures.file 1000 (Byte.x00 :: Fixtures.bytes 1500))])).2
    !! getOutputFileName "/dist/a.js" (r_ext (resolveOptions no_options))
  = Some {| node_mtimeMs :=
              fs_clock (Fixtures.host 5000)
                (getOutputFileName "/dist/a.js" (r_ext (resolveOptions no_options)));
            node_data := node_data (Fixtures.file 1000 (Byte.x00 :: Fixtures.bytes 1500)) |}.
Proof.
  refine (proj1 (proj2 (proj1 (X15_codec_failure (Fixtures.host 5000)
            (resolveOptions no_options) ∅ "/dist/a.js"
            (Fixtures.disk
               [("/dist/a.js", Fixtures.file 1000 (Byte.x00 :: Fixtures.bytes 1500))])
            (Fixtures.file 1000 (Byte.x00 :: Fixtures.bytes 1500)) _ _) _))).
  - reflexivity.
  - unfold skip_condition. vm_compute.
    intros [H | H]; [apply H | discriminate H]; reflexivity.
  - reflexivity.
Defined.

(** ** Tasks of different files *)

Lemma handle_will_process (h : Host) (o : ResolvedOptions)
    (copts : gmap string OptionValue) (p : string) (s : State) :
  match will_process o s p with
  | Some n =>
      handle h o copts p s = (Resolved tt, process_state h o copts p n s)
  | None =>
      (handle h o copts p s).2 = emit (EvStat p) s
      ∧ (handle h o copts p s).1
        = if fs s !! p is Some _ then Resolved tt else Rejected "ENOENT"
  end.
Proof.
  unfold will_process.
  destruct (fs s !! p) as [n|] eqn:Hp.
  - destruct (decide (skip_condition o s p n)) as [Hc | Hc].
    + by rewrite (handle_skip h o copts p s n Hp Hc).
    + by apply handle_process.
  - by rewrite (handle_missing h o copts p s Hp).
Qed.

Lemma will_process_frame (o : ResolvedOptions) (s s' : State) (p : string) :
  fs s' !! p = fs s !! p → mtimeCache s' !! p = mtimeCache s !! p →
  will_process o s' p = will_process o s p.
Proof.
  intros Hf Hc. unfold will_process. rewrite Hf.
  destruct (fs s !! p) as [n|]; [|done].
  destruct (decide (skip_condition o s' p n)) as [H1 | H1];
    destruct (decide (skip_condition o s p n)) as [H2 | H2]; try done;
    unfold skip_condition in *; rewrite Hc in *; tauto.
Qed.

Lemma handle_fs_lookup (h : Host) (o : ResolvedOptions)
    (copts : gmap string OptionValue) (p : string) (s : State) (x : string) :
  fs (handle h o copts p s).2 !! x
  = match will_process o s p with
    | None => fs s !! x
    | Some n =>
        if decide (x = getOutputFileName p (r_ext o))
        then Some (output_of h o copts p n)
        else if r_deleteOriginFile o && bool_decide (x = p) then None
             else fs s !! x
    end.
Proof.
  pose proof (handle_will_process h o copts p s) as H.
  destruct (will_process o s p) as [n|].
  - rewrite H. unfold process_state. cbn [snd fs].
    destruct (decide (x = getOutputFileName p (r_ext o))) as [-> | Hne].
    + by rewrite lookup_insert_eq.
    + rewrite lookup_insert_ne by done.
      destruct (r_deleteOriginFile o); cbn; [|done].
      case_bool_decide as Hx; [subst; apply lookup_delete_eq|].
      by rewrite lookup_delete_ne.
  - destruct H as [-> _]. done.
Qed.

Lemma handle_mtimeCache_lookup (h : Host) (o : ResolvedOptions)
    (copts : gmap string OptionValue) (p : string) (s : State) (x : string) :
  mtimeCache (handle h o copts p s).2 !! x
  = match will_process o s p with
    | None => mtimeCache s !! x
    | Some n => if decide (x = p) then Some (Date_now h p) else mtimeCache s !! x
    end.
Proof.
  pose proof (handle_will_process h o copts p s) as H.
  destruct (will_process o s p) as [n|].
  - rewrite H. unfold process_state. cbn [snd mtimeCache].
    destruct (decide (x = p)) as [-> | Hne].
    + by rewrite lookup_insert_eq.
    + by rewrite lookup_insert_ne.
  - destruct H as [-> _]. done.
Qed.

Lemma handle_compressMap (h : Host) (o : ResolvedOptions)
    (copts : gmap string OptionValue) (p : string) (s : State) :
  compressMap (handle h o copts p s).2
  = match will_process o s p with
    | None => compressMap s
    | Some n => jsmap_set p (entry_of h o copts p n) (compressMap s)
    end.
Proof.
  pose proof (handle_will_process h o copts p s) as H.
  destruct (will_process o s p) as [n|].
  - by rewrite H.
  - destruct H as [-> _]. done.
Qed.

Lemma will_process_other (h : Host) (o : ResolvedOptions)
    (copts : gmap string OptionValue) (p q : string) (s : State) :
  p ≠ q → getOutputFileName q (r_ext o) ≠ p →
  will_process o (handle h o copts q s).2 p = will_process o s p.
Proof.
  intros Hne Hout. apply will_process_frame.
  - rewrite handle_fs_lookup. destruct (will_process o s q); [|done].
    rewrite decide_False by done.
    rewrite (bool_decide_eq_false_2 (p = q)) by done. by rewrite andb_false_r.
  - rewrite handle_mtimeCache_lookup. destruct (will_process o s q); [|done].
    by rewrite decide_False.
Qed.

Lemma jsmap_set_In_iff {V} (k : string) (v : V) (m : list (string * V)) kv :
  NoDup (map fst m) →
  In kv (jsmap_set k v m) ↔ kv = (k, v) ∨ (kv.1 ≠ k ∧ In kv m).
Proof.
  intros Hnd. induction m as [|[k' v'] m IH]; simpl.
  - split; [intros [<- | []]; by left | intros [-> | [_ []]]; by left].
  - apply NoDup_cons in Hnd as [Hk' Hnd]. specialize (IH Hnd).
    destruct (decide (k = k')) as [-> | Hne]; simpl.
    + split.
      * intros [<- | Hin]; [by left|]. right. split; [|by right].
        intros Heq. apply Hk'. apply list_elem_of_In. apply in_map_iff.
        exists kv. by split.
      * intros [-> | [Hk [<- | Hin]]]; [by left | done | by right].
    + rewrite IH. split.
      * intros [<- | [-> | [Hk Hin]]]; [right; split; [cbn; congruence | by left]
                                       | by left | right; split; [done | by right]].
      * intros [-> | [Hk [<- | Hin]]]; [right; by left | by left | right; right; done].
Qed.

(** X16. The tasks of two different files, neither being the output path of
    the other, do not depend on their order: each ends the same way and does
    the same to the disk and to the cache whichever runs first, and
    [compressMap] gets the same entries (the order of the rows may differ). *)
Theorem X16_tasks_commute (h : Host) (o : ResolvedOptions)
    (copts : gmap string OptionValue) (p q : string) (s : State) :
  p ≠ q →
  getOutputFileName p (r_ext o) ≠ q →
  getOutputFileName q (r_ext o) ≠ p →
  NoDup (map fst (compressMap s)) →
  (handle h o copts q (handle h o copts p s).2).1 = (handle h o copts q s).1
  ∧ (handle h o copts p (handle h o copts q s).2).1 = (handle h o copts p s).1
  ∧ fs (handle h o copts q (handle h o copts p s).2).2
    = fs (handle h o copts p (handle h o copts q s).2).2
  ∧ mtimeCache (handle h o copts q (handle h o copts p s).2).2
    = mtimeCache (handle h o copts p (handle h o copts q s).2).2
  ∧ ∀ kv, In kv (compressMap (handle h o copts q (handle h o copts p s).2).2)
          ↔ In kv (compressMap (handle h o copts p (handle h o copts q s).2).2).
Proof.
  intros Hne Hpq Hqp Hnd.
  assert (q ≠ p) as Hne' by congruence.
  pose proof (will_process_other h o copts p q s Hne Hqp) as Wp.
  pose proof (will_process_other h o copts q p s Hne' Hpq) as Wq.
  assert (getOutputFileName p (r_ext o) ≠ getOutputFileName q (r_ext o)) as Hcn.
  { intros Heq. apply Hne. by apply (append_inj_l _ _ _ Heq). }
  assert (∀ a (s1 s2 : State), fs s1 !! a = fs s2 !! a →
            mtimeCache s1 !! a = mtimeCache s2 !! a →
            (handle h o copts a s1).1 = (handle h o copts a s2).1) as Hout.
  { intros a s1 s2 Hf Hc.
    pose proof (handle_will_process h o copts a s1) as H1.
    pose proof (handle_will_process h o copts a s2) as H2.
    rewrite (will_process_frame o s2 s1 a Hf Hc) in H1.
    destruct (will_process o s2 a); [by rewrite H1, H2|].
    destruct H1 as [_ ->], H2 as [_ ->]. by rewrite Hf. }
  split; [|split; [|split; [|split]]].
  - apply Hout.
    + rewrite handle_fs_lookup. destruct (will_process o s p); [|done].
      rewrite decide_False by congruence.
      rewrite (bool_decide_eq_false_2 (q = p)) by done. by rewrite andb_false_r.
    + rewrite handle_mtimeCache_lookup. destruct (will_process o s p); [|done].
      by rewrite decide_False.
  - apply Hout.
    + rewrite handle_fs_lookup. destruct (will_process o s q); [|done].
      rewrite decide_False by congruence.
      rewrite (bool_decide_eq_false_2 (p = q)) by done. by rewrite andb_false_r.
    + rewrite handle_mtimeCache_lookup. destruct (will_process o s q); [|done].
      by rewrite decide_False.
  - apply map_eq. intros x. rewrite !handle_fs_lookup, Wp, Wq.
    destruct (will_process o s p) as [np|], (will_process o s q) as [nq|];
      try done.
    repeat case_decide; subst; try done;
      destruct (r_deleteOriginFile o); cbn; repeat case_bool_decide;
      subst; try done.
  - apply map_eq. intros x. rewrite !handle_mtimeCache_lookup, Wp, Wq.
    destruct (will_process o s p) as [np|], (will_process o s q) as [nq|];
      try done.
    repeat case_decide; subst; done.
  - intros kv. rewrite !handle_compressMap, Wp, Wq.
    destruct (will_process o s p) as [np|], (will_process o s q) as [nq|];
      try done.
    rewrite !jsmap_set_In_iff by (try apply jsmap_set_NoDup; done).
    split.
    + intros [-> | [Hk [-> | [Hk' Hin]]]]; cbn in *; auto 10.
    + intros [-> | [Hk [-> | [Hk' Hin]]]]; cbn in *; auto 10.
Qed.

Lemma X16_tasks_commute_witness :
  fs (handle (Fixtures.host 5000) (resolveOptions no_options) ∅ "/dist/b.js"
        (handle (Fixtures.host 5000) (resolveOptions no_options) ∅ "/dist/a.js"
           Fixtures.three_files).2).2
  = fs (handle (Fixtures.host 5000) (resolveOptions no_options) ∅ "/dist/a.js"
          (handle (Fixtures.host 5000) (resolveOptions no_options) ∅ "/dist/b.js"
             Fixtures.three_files).2).2.
Proof.
  refine (proj1 (proj2 (proj2
            (X16_tasks_commute (Fixtures.host 5000) (resolveOptions no_options) ∅
               "/dist/a.js" "/dist/b.js" Fixtures.three_files _ _ _ _)))).
  - discriminate.
  - vm_compute. discriminate.
  - vm_compute. discriminate.
  - cbn. constructor.
Defined.

(** ** The other [handleOutputLogger] *)

Lemma Math_max_ge (l : list Z) (x : Z) :
  In x l → ∃ mx, Compact.Math_max l = Some mx ∧ x ≤ mx.
Proof.
  induction l as [|y l IH]; [intros []|].
  intros [-> | Hin]; simpl.
  - destruct (Compact.Math_max l); eexists; split; try reflexivity; lia.
  - destruct (IH Hin) as (mx & -> & Hle). eexists. split; [reflexivity | lia].
Qed.

Lemma Compact_log_entries (line : string * CompressEntry → option string)
    (m : list (string * CompressEntry)) :
  (∀ kv, In kv m → is_Some (line kv)) →
  (Compact.log_entries line m).2 = Resolved tt
  ∧ length (Compact.log_entries line m).1 = length m.
Proof.
  induction m as [|kv m IH]; intros Hall; simpl; [done|].
  destruct (Hall kv (or_introl eq_refl)) as [l ->].
  destruct IH as [IH1 IH2]; [intros kv' Hkv'; apply Hall; by right|].
  destruct (Compact.log_entries line m) as [ls r]. cbn in *. by rewrite IH2.
Qed.

(** X17. The variant of [handleOutputLogger] without totals never throws:
    the padding of every line is at least two blanks, since the longest key
    is at least as long as each key, and with no entries no padding is
    computed. It logs the header, one line per entry and a blank line. *)
Theorem X17_compact_report_returns (c : Console) (outDir_basename : string)
    (m : list (string * CompressEntry)) (algorithm : string) :
  (Compact.handleOutputLogger_lines c outDir_basename m algorithm).2 = Resolved tt
  ∧ length (Compact.handleOutputLogger_lines c outDir_basename m algorithm).1
    = (length m + 2)%nat
  ∧ ∀ kv, In kv m →
      ∃ pad,
        Compact.padding
          (Compact.Math_max (map (λ kv : string * CompressEntry, str_length kv.1) m))
          kv.1 = Some pad
        ∧ (2 ≤ String.length pad)%nat.
Proof.
  assert (∀ kv, In kv m →
      ∃ pad,
        Compact.padding
          (Compact.Math_max (map (λ kv : string * CompressEntry, str_length kv.1) m))
          kv.1 = Some pad
        ∧ (2 ≤ String.length pad)%nat) as Hpad.
  { intros kv Hkv.
    destruct (Math_max_ge (map (λ kv : string * CompressEntry, str_length kv.1) m)
                (str_length kv.1)) as (mx & -> & Hle).
    { apply in_map_iff. eauto. }
    unfold Compact.padding, String_repeat.
    destruct (Z.ltb_spec (2 + mx - str_length kv.1) 0); [lia|].
    eexists. split; [reflexivity|].
    assert (∀ k, String.length (repeat_string " " k) = k) as Hlen.
    { induction k as [|k IH]; [done|]. simpl. rewrite append_length, IH.
      reflexivity. }
    rewrite Hlen. lia. }
  unfold Compact.handleOutputLogger_lines.
  destruct (Compact_log_entries
              (Compact.row_line c outDir_basename algorithm
                 (Compact.Math_max
                    (map (λ kv : string * CompressEntry, str_length kv.1) m))) m)
    as [H1 H2].
  { intros kv Hkv. destruct (Hpad kv Hkv) as (pad & Hp & _).
    unfold Compact.row_line. rewrite Hp. cbn. eauto. }
  destruct (Compact.log_entries _ m) as [ls r]. cbn in H1, H2. subst r. cbn.
  split; [done|]. split; [|done].
  rewrite length_app. cbn. lia.
Qed.

Lemma X17_compact_report_returns_witness :
  ∃ pad,
    Compact.padding
      (Compact.Math_max
         (map (λ kv : string * CompressEntry, str_length kv.1)
            [("/dist/a.js",
              {| e_size := 700; e_oldSize := 2000; e_cname := "/dist/a.js.gz" |})]))
      ("/dist/a.js",
       {| e_size := 700; e_oldSize := 2000; e_cname := "/dist/a.js.gz" |}).1
    = Some pad
    ∧ (2 ≤ String.length pad)%nat.
Proof.
  apply (X17_compact_report_returns Plain.console "dist"
           [("/dist/a.js",
             {| e_size := 700; e_oldSize := 2000; e_cname := "/dist/a.js.gz" |})]
           "gzip").
  left. reflexivity.
Defined.
